(** * Interview scheduler tools: a shallow embedding and its properties

    The mock tools of [interview_scheduler_agent/agent.py] and the SQL tool of
    [interview_scheduler_agent/sql_agent.py] are embedded as functions in a
    small console monad: every tool prints to standard output, reads the
    simulated outcome from standard input with [input("> ")], derives a status
    by keyword search in the lowercased text and returns a dictionary. *)

From Stdlib Require Import String Ascii DecimalString.
From Stdlib Require Import List NArith ZArith Bool Lia.
Import ListNotations.

Set Warnings "-register-all".
Local Open Scope N_scope.

(** ** Python strings *)

(** A Python [str] is a sequence of Unicode code points. *)
Definition codepoint := N.
Definition str := list codepoint.

(** An ASCII literal of the source, as a [str]. *)
Definition py (s : string) : str := map N_of_ascii (list_ascii_of_string s).

Fixpoint str_eqb (a b : str) : bool :=
  match a, b with
  | [], [] => true
  | x :: a', y :: b' => (x =? y) && str_eqb a' b'
  | _, _ => false
  end.

(** [s.startswith(prefix)] *)
Fixpoint startswith (s prefix : str) : bool :=
  match prefix, s with
  | [], _ => true
  | p :: prefix', c :: s' => (c =? p) && startswith s' prefix'
  | _ :: _, [] => false
  end.

(** [needle in hay], for two strings: substring search. *)
Fixpoint str_in (needle hay : str) : bool :=
  startswith hay needle ||
  match hay with
  | [] => false
  | _ :: hay' => str_in needle hay'
  end.

(** The relation that [str_in] decides. *)
Definition Substring (needle hay : str) : Prop :=
  exists pre post, hay = pre ++ needle ++ post.

(** [str(n)] for an integer. *)
Definition str_of_int (z : Z) : str := py (NilZero.string_of_int (Z.to_int z)).

(** ** Values, dictionaries, dates *)

(** The Python values that the tools store in their result dictionaries or
    obtain from [json.loads]. *)
Inductive pyval :=
| PNone
| PBool (b : bool)
| PInt (z : Z)
| PFloat (repr : str)
| PStr (s : str)
| PList (l : list pyval)
| PDict (d : list (str * pyval)).

(** A dictionary literal with string keys, in insertion order. *)
Definition dict := list (str * pyval).

Fixpoint dict_get (k : str) (d : dict) : option pyval :=
  match d with
  | [] => None
  | (k', v) :: d' => if str_eqb k k' then Some v else dict_get k d'
  end.

Record datetime := {
  year : N; month : N; day : N;
  hour : N; minute : N; second : N; microsecond : N
}.

(** The exceptions that can occur inside the tools. *)
Inductive exn :=
| EOFError
| ValueError (msg : str)
| TypeError (msg : str)
| OtherError (msg : str).

(** [str(e)] *)
Definition str_of_exn (e : exn) : str :=
  match e with
  | EOFError => py "EOF when reading a line"
  | ValueError m | TypeError m | OtherError m => m
  end.

(** What [json.loads] does on a string: a value, [json.JSONDecodeError], or
    another exception (such as [RecursionError]). *)
Inductive loads_result :=
| Loaded (v : pyval)
| JSONDecodeError
| LoadsRaised (e : exn).

(** ** The Python runtime

    The parts of the interpreter and its standard library that the tools call
    and that are tables or parsers of their own: the Unicode case and
    whitespace tables outside ASCII, the date formatters, [str.isdigit],
    [int] and [json.loads].  On ASCII the string functions are defined below,
    for every runtime. *)
Record Runtime := {
  (** full lowercase mapping of a code point above 127; it sees the text
      before and after it (the final-sigma rule) *)
  lower_full : str -> codepoint -> str -> str;
  (** [str.isspace] on a code point above 127 *)
  isspace_full : codepoint -> bool;
  (** [d.strftime(fmt)] *)
  strftime : datetime -> str -> str;
  (** [d.isoformat()] *)
  isoformat : datetime -> str;
  (** [s.isdigit()] *)
  isdigit : str -> bool;
  (** [int(s)]: the integer, or the exception it raises *)
  int_of_str : str -> Z + exn;
  (** [json.loads(s)] *)
  json_loads : str -> loads_result
}.

(** ** The console: standard input and output, and the clock *)

Record world := {
  stdin : list str;          (* the lines not read yet *)
  stdout : list str;         (* what was written, oldest first *)
  clock : nat -> datetime;   (* the n-th reading of the system clock *)
  ticks : nat                (* the number of readings so far *)
}.

Inductive result (A : Type) :=
| Ok (a : A)
| Raise (e : exn).
Arguments Ok {A} a.
Arguments Raise {A} e.

Definition IO (A : Type) : Type := world -> result A * world.

Definition ret {A} (a : A) : IO A := fun w => (Ok a, w).

Definition bind {A B} (m : IO A) (k : A -> IO B) : IO B :=
  fun w =>
    match m w with
    | (Ok a, w') => k a w'
    | (Raise e, w') => (Raise e, w')
    end.

Declare Scope io_scope.
Delimit Scope io_scope with io.
Notation "x <- m ;; k" := (bind m (fun x => k))
  (at level 61, m at next level, right associativity) : io_scope.
Notation "m ;; k" := (bind m (fun _ => k))
  (at level 61, right associativity) : io_scope.
Local Open Scope io_scope.

Definition write (s : str) : IO unit :=
  fun w => (Ok tt, {| stdin := stdin w; stdout := stdout w ++ [s];
                      clock := clock w; ticks := ticks w |}).

(** [print(s)] *)
Definition print (s : str) : IO unit := write (s ++ [10]).

(** [input(prompt)]: writes the prompt, then reads one line; [EOFError] when
    standard input is exhausted. *)
Definition input (prompt : str) : IO str :=
  write prompt ;;
  fun w =>
    match stdin w with
    | [] => (Raise EOFError, w)
    | line :: rest =>
        (Ok line, {| stdin := rest; stdout := stdout w;
                     clock := clock w; ticks := ticks w |})
    end.

(** [datetime.datetime.now()] *)
Definition datetime_now : IO datetime :=
  fun w => (Ok (clock w (ticks w)),
            {| stdin := stdin w; stdout := stdout w;
               clock := clock w; ticks := S (ticks w) |}).

(** [try: body except Exception as e: handler(e)] *)
Definition try_except {A} (body : IO A) (handler : exn -> IO A) : IO A :=
  fun w =>
    match body w with
    | (Ok a, w') => (Ok a, w')
    | (Raise e, w') => handler e w'
    end.

Definition raise {A} (e : exn) : IO A := fun w => (Raise e, w).

(** [if c: m] with no else branch *)
Definition when (c : bool) (m : IO unit) : IO unit := if c then m else ret tt.

Section Tools.

Variable rt : Runtime.

(** ** String methods that depend on the Unicode tables *)

Definition ascii_lower (c : codepoint) : codepoint :=
  if (65 <=? c) && (c <=? 90) then c + 32 else c.

Definition lower_char (before : str) (c : codepoint) (after : str) : str :=
  if c <? 128 then [ascii_lower c] else lower_full rt before c after.

Fixpoint lower_from (before s : str) : str :=
  match s with
  | [] => []
  | c :: rest => lower_char before c rest ++ lower_from (before ++ [c]) rest
  end.

(** [s.lower()] *)
Definition lower (s : str) : str := lower_from [] s.

(** [c.isspace()] for one code point *)
Definition isspace (c : codepoint) : bool :=
  if c <? 128
  then ((9 <=? c) && (c <=? 13)) || ((28 <=? c) && (c <=? 31)) || (c =? 32)
  else isspace_full rt c.

Fixpoint lstrip (s : str) : str :=
  match s with
  | [] => []
  | c :: rest => if isspace c then lstrip rest else s
  end.

Definition rstrip (s : str) : str := rev (lstrip (rev s)).

(** [s.strip()] *)
Definition strip (s : str) : str := rstrip (lstrip s).

(** Truth value of a string: non-empty. *)
Definition truthy (s : str) : bool :=
  match s with [] => false | _ :: _ => true end.

(** ** agent.py *)

Definition call_contact (contact_name phone_number purpose : str) : IO dict :=
  let role :=
    if str_in (py "interviewer") (lower purpose) then py "Interviewer"
    else if str_in (py "candidate") (lower purpose) then py "Candidate"
    else if str_in (py "hr") (lower purpose)
            || str_in (py "recruiter") (lower purpose) then py "HR/Recruiter"
    else py "Contact" in
  print ([10; 0x1F4DE] ++ py " Simulating call to " ++ contact_name
           ++ py " (" ++ role ++ py ")") ;;
  print (py "Phone: " ++ phone_number) ;;
  print (py "Purpose: " ++ purpose) ;;
  print ([10] ++ py "Please describe the call outcome with " ++ role ++ py ":") ;;
  outcome <- input (py "> ") ;;
  let success :=
    negb (str_in (py "no answer") (lower outcome))
    && negb (str_in (py "failed") (lower outcome)) in
  let result := [
    (py "status", PStr (if success then py "success" else py "no_answer"));
    (py "contact_name", PStr contact_name);
    (py "contact_role", PStr role);
    (py "phone_number", PStr phone_number);
    (py "discussion_summary", PStr outcome);
    (py "duration_minutes", PInt (if success then 5 else 0));
    (py "next_steps", PStr (if negb success then py "Follow up via email"
                            else py "Proceed with scheduling"))
  ] in
  print ([10; 0x1F4DE] ++ py " Call Result with " ++ role ++ py ": " ++ outcome) ;;
  ret result.

(** [schedule_calendar]; the defaults [duration_minutes=60] and
    [interview_type="technical"] are filled in by the caller. *)
Definition schedule_calendar (candidate_name date time : str)
    (duration_minutes : Z) (interview_type : str) : IO dict :=
  print ([10; 0x1F4C5] ++ py " Attempting to schedule: " ++ interview_type
           ++ py " interview") ;;
  print (py "For: " ++ candidate_name) ;;
  print (py "Date: " ++ date ++ py " at " ++ time ++ py " ("
           ++ str_of_int duration_minutes ++ py " minutes)") ;;
  print ([10] ++ py "Enter scheduling result (e.g., confirmed, conflict, alternative time, etc.):") ;;
  outcome <- input (py "> ") ;;
  let success :=
    negb (str_in (py "conflict") (lower outcome))
    && negb (str_in (py "fail") (lower outcome)) in
  t <- datetime_now ;;
  let result := [
    (py "status", PStr (if success then py "success" else py "conflict"));
    (py "candidate_name", PStr candidate_name);
    (py "scheduled_date", PStr date);
    (py "scheduled_time", PStr time);
    (py "duration_minutes", PInt duration_minutes);
    (py "interview_type", PStr interview_type);
    (py "confirmation", PStr outcome);
    (py "meeting_id", PStr (py "INT_" ++ strftime rt t (py "%Y%m%d%H%M")))
  ] in
  print ([10; 0x1F4C5] ++ py " Scheduling Result: " ++ outcome) ;;
  ret result.

(** [any(word in message_type.lower() or word in subject.lower()
         for word in words)] *)
Definition any_word_in (words : list str) (message_type subject : str) : bool :=
  existsb (fun word => str_in word (lower message_type)
                       || str_in word (lower subject)) words.

(** [send_email]; the default [additional_details=""] is filled in by the
    caller. *)
Definition send_email (recipient_email subject message_type additional_details : str)
    : IO dict :=
  let role :=
    if any_word_in [py "interviewer"; py "interview availability"]
         message_type subject then py "Interviewer"
    else if any_word_in [py "candidate"; py "applicant"]
         message_type subject then py "Candidate"
    else if any_word_in [py "hr"; py "recruiter"; py "recruitment"]
         message_type subject then py "HR/Recruiter"
    else py "Recipient" in
  print ([10; 0x1F4E7] ++ py " Sending " ++ message_type ++ py " email") ;;
  print (py "To: " ++ recipient_email ++ py " (" ++ role ++ py ")") ;;
  print (py "Subject: " ++ subject) ;;
  print (py "Additional Details: " ++ additional_details) ;;
  print ([10] ++ py "Enter email sending result:") ;;
  outcome <- input (py "> ") ;;
  let delivered :=
    negb (str_in (py "fail") (lower outcome))
    && negb (str_in (py "error") (lower outcome)) in
  reply <-
    (if delivered then
       print ([10; 0x1F4E8] ++ py " Simulate " ++ role
                ++ py "'s response to this email:") ;;
       print (py "(Enter their reply or press Enter for no response)") ;;
       email_response <- input (py "> ") ;;
       if truthy (strip email_response) then
         print ([10] ++ py "How long did " ++ role
                  ++ py " take to respond? (e.g., '5 minutes', '2 hours', etc.)") ;;
         response_time <- input (py "> ") ;;
         ret (email_response, response_time)
       else
         ret (py "No response received", py "N/A")
     else
       ret (py "Email not delivered", py "N/A")) ;;
  let '(email_response, response_time) := reply in
  t <- datetime_now ;;
  let result := [
    (py "status", PStr (if negb (str_in (py "fail") (lower outcome))
                           && negb (str_in (py "error") (lower outcome))
                        then py "success" else py "failed"));
    (py "recipient_email", PStr recipient_email);
    (py "recipient_role", PStr role);
    (py "subject", PStr subject);
    (py "message_type", PStr message_type);
    (py "delivery_confirmation", PStr outcome);
    (py "recipient_response", PStr email_response);
    (py "response_time", PStr response_time);
    (py "sent_at", PStr (isoformat rt t))
  ] in
  print ([10; 0x1F4E7] ++ py " Email Result to " ++ role ++ py ": " ++ outcome) ;;
  when (match dict_get (py "status") result with
        | Some (PStr s) => str_eqb s (py "success")
        | _ => false
        end)
    (print ([0x1F4E8] ++ py " " ++ role ++ py "'s Response: " ++ email_response) ;;
     when (negb (str_eqb response_time (py "N/A")))
       (print ([0x23F1; 0xFE0F] ++ py " Response Time: " ++ response_time))) ;;
  ret result.

(** [human_in_loop]; the default [suggested_actions=""] is filled in by the
    caller. *)
Definition human_in_loop (situation context suggested_actions : str) : IO dict :=
  print ([10; 0x1F91D] ++ py " Human Intervention Needed") ;;
  print (concat (repeat (py "=") 50%nat)) ;;
  print (py "Situation: " ++ situation) ;;
  print (py "Context: " ++ context) ;;
  when (truthy suggested_actions)
    (print (py "Suggested Actions: " ++ suggested_actions)) ;;
  print ([10] ++ py "Please provide your decision/guidance:") ;;
  decision <- input (py "> ") ;;
  print ([10] ++ py "Any additional instructions? (Press Enter if none)") ;;
  additional_instructions <- input (py "> ") ;;
  t <- datetime_now ;;
  let result := [
    (py "status", PStr (if negb (str_in (py "cancel") (lower decision))
                        then py "resolved" else py "cancelled"));
    (py "decision", PStr decision);
    (py "additional_instructions",
       PStr (if truthy additional_instructions then additional_instructions
             else py "None"));
    (py "timestamp", PStr (isoformat rt t))
  ] in
  print ([10; 0x1F91D] ++ py " Human Decision: " ++ decision) ;;
  when (truthy additional_instructions)
    (print (py "Additional Instructions: " ++ additional_instructions)) ;;
  ret result.

(** ** sql_agent.py *)

(** [len(v)] *)
Definition py_len (v : pyval) : Z + exn :=
  match v with
  | PStr s => inl (Z.of_nat (length s))
  | PList l => inl (Z.of_nat (length l))
  | PDict d => inl (Z.of_nat (length d))
  | PNone => inr (TypeError (py "object of type 'NoneType' has no len()"))
  | PBool _ => inr (TypeError (py "object of type 'bool' has no len()"))
  | PInt _ => inr (TypeError (py "object of type 'int' has no len()"))
  | PFloat _ => inr (TypeError (py "object of type 'float' has no len()"))
  end.

Definition lift {A} (r : A + exn) : IO A :=
  match r with inl a => ret a | inr e => raise e end.

(** [try: json.loads(s) except json.JSONDecodeError: {"raw_output": s}] *)
Definition loads_or_raw (s : str) : IO pyval :=
  match json_loads rt s with
  | Loaded v => ret v
  | JSONDecodeError => ret (PDict [(py "raw_output", PStr s)])
  | LoadsRaised e => raise e
  end.

(** [execute_sql_query]; the default [explanation=""] is filled in by the
    caller. *)
Definition execute_sql_query (query explanation : str) : IO dict :=
  print ([10; 0x1F50D] ++ py " Executing SQL Query") ;;
  when (truthy explanation) (print (py "Purpose: " ++ explanation)) ;;
  print (py "Query: " ++ query) ;;
  print (concat (repeat (py "-") 50%nat)) ;;
  print (py "Enter query execution result:") ;;
  print (py "Format: 'success' followed by JSON results, or 'error: <error_message>'") ;;
  outcome <- input (py "> ") ;;
  if startswith (lower outcome) (py "error") then
    let error_msg :=
      if (6 <? length outcome)%nat then strip (skipn 6 outcome)
      else py "Unknown database error" in
    t <- datetime_now ;;
    let result := [
      (py "status", PStr (py "error"));
      (py "query", PStr query);
      (py "error_message", PStr error_msg);
      (py "suggestion", PStr (py "Check table names, column names, and syntax"));
      (py "executed_at", PStr (isoformat rt t))
    ] in
    print ([10; 0x274C] ++ py " Query Error: " ++ error_msg) ;;
    ret result
  else
    try_except
      (results <-
         (if str_eqb (lower outcome) (py "success") then
            print (py "Enter the query results (JSON format or row count):") ;;
            results_input <- input (py "> ") ;;
            if isdigit rt results_input then
              n <- lift (int_of_str rt results_input) ;;
              ret (PDict [(py "row_count", PInt n); (py "rows", PList [])])
            else
              loads_or_raw results_input
          else
            loads_or_raw outcome) ;;
       row_count <-
         (match results with
          | PDict d =>
              match dict_get (py "rows") d with
              | Some rows => n <- lift (py_len rows) ;; ret (PInt n)
              | None => ret PNone
              end
          | _ => ret PNone
          end) ;;
       t <- datetime_now ;;
       let result := [
         (py "status", PStr (py "success"));
         (py "query", PStr query);
         (py "results", results);
         (py "row_count", row_count);
         (py "executed_at", PStr (isoformat rt t))
       ] in
       print ([10; 0x2705] ++ py " Query executed successfully") ;;
       when (match row_count with PNone => false | _ => true end)
         (print (py "Rows returned: "
                   ++ match row_count with PInt n => str_of_int n | _ => [] end)) ;;
       ret result)
      (fun e =>
         t <- datetime_now ;;
         let result := [
           (py "status", PStr (py "error"));
           (py "query", PStr query);
           (py "error_message", PStr (py "Result parsing error: " ++ str_of_exn e));
           (py "executed_at", PStr (isoformat rt t))
         ] in
         print ([10; 0x274C] ++ py " Result parsing error: " ++ str_of_exn e) ;;
         ret result).

End Tools.

(** ** More of the Python runtime: lists, dictionaries, formatting *)

(** [sep.join(parts)] *)
Fixpoint join (sep : str) (parts : list str) : str :=
  match parts with
  | [] => []
  | p :: rest =>
      match rest with
      | [] => p
      | _ :: _ => p ++ sep ++ join sep rest
      end
  end.

(** [d[k] = v]: the value of an existing key is replaced where it is, a new
    key is added at the end. *)
Fixpoint dict_set (k : str) (v : pyval) (d : dict) : dict :=
  match d with
  | [] => [(k, v)]
  | (k', v') :: d' =>
      if str_eqb k k' then (k', v) :: d' else (k', v') :: dict_set k v d'
  end.

(** [x in l], for a list of strings *)
Definition mem (x : str) (l : list str) : bool := existsb (str_eqb x) l.

(** [list(dict.fromkeys(xs))]: the keys are inserted one by one, a key that
    is already there keeps its place. *)
Definition fromkeys (xs : list str) : list str :=
  fold_left (fun keys x => if mem x keys then keys else keys ++ [x]) xs [].

(** [d[k]] in a dictionary of dictionaries *)
Fixpoint table_get (k : str) (d : list (str * dict)) : option dict :=
  match d with
  | [] => None
  | (k', v) :: d' => if str_eqb k k' then Some v else table_get k d'
  end.

(** [for x in l: body(x)] *)
Fixpoint for_each {A} (l : list A) (body : A -> IO unit) : IO unit :=
  match l with
  | [] => ret tt
  | x :: l' => body x ;; for_each l' body
  end.

(** [d[k]] as an expression: [KeyError] when the key is missing. *)
Definition getitem (k : str) (d : dict) : IO pyval :=
  match dict_get k d with
  | Some v => ret v
  | None => raise (OtherError (py "'" ++ k ++ py "'"))
  end.

(** ** sql_agent.py: the schema table *)

Definition DATABASE_SCHEMA : list (str * dict) := [
  (py "customer_master", [
     (py "description",
       PStr (py "Main customer information table with account details, API keys, and configuration"));
     (py "key_columns",
       PList [PStr (py "customer_id"); PStr (py "CustomerName"); PStr (py "api_key"); PStr (py "extraction_type")]);
     (py "relationships",
       PDict [
         (py "customer_preferences", PStr (py "customer_id"));
         (py "case_master", PStr (py "customer_id"));
         (py "document_classification", PStr (py "customer_id"));
         (py "pipleline_customer_config", PStr (py "customer_id"));
         (py "di_audit", PStr (py "customer_id")) ]) ]);
  (py "customer_preferences", [
     (py "description",
       PStr (py "Additional customer configuration and preferences"));
     (py "key_columns",
       PList [PStr (py "id"); PStr (py "customer_id"); PStr (py "preference_name"); PStr (py "preference_value")]);
     (py "relationships",
       PDict [
         (py "customer_master", PStr (py "customer_id")) ]) ]);
  (py "api_master", [
     (py "description",
       PStr (py "Downstream API definitions and configurations"));
     (py "key_columns",
       PList [PStr (py "api_id"); PStr (py "api_url"); PStr (py "api_method_type"); PStr (py "api_type")]);
     (py "relationships",
       PDict [
         (py "pipeline_master", PStr (py "api_id"));
         (py "di_audit", PStr (py "api_id")) ]) ]);
  (py "pipeline_master", [
     (py "description",
       PStr (py "Abstraction layer over API master with meaningful pipeline names"));
     (py "key_columns",
       PList [PStr (py "pipeline_id"); PStr (py "pipeline_name"); PStr (py "api_id")]);
     (py "relationships",
       PDict [
         (py "api_master", PStr (py "api_id"));
         (py "pipleline_customer_config", PStr (py "pipeline_id")) ]) ]);
  (py "pipleline_customer_config", [
     (py "description",
       PStr (py "Customer-specific pipeline configurations per queue"));
     (py "key_columns",
       PList [PStr (py "pipeline_customer_id"); PStr (py "pipeline_id"); PStr (py "customer_id"); PStr (py "queue_name")]);
     (py "relationships",
       PDict [
         (py "pipeline_master", PStr (py "pipeline_id"));
         (py "customer_master", PStr (py "customer_id"));
         (py "di_audit", PStr (py "pipeline_customer_id")) ]) ]);
  (py "di_audit", [
     (py "description",
       PStr (py "Audit logs for downstream integration actions and API calls"));
     (py "key_columns",
       PList [PStr (py "id"); PStr (py "pipeline_customer_id"); PStr (py "customer_id"); PStr (py "queue_name"); PStr (py "case_id"); PStr (py "doc_id")]);
     (py "relationships",
       PDict [
         (py "pipleline_customer_config", PStr (py "pipeline_customer_id"));
         (py "customer_master", PStr (py "customer_id"));
         (py "api_master", PStr (py "api_id"));
         (py "case_master", PStr (py "case_id")) ]) ]);
  (py "case_master", [
     (py "description",
       PStr (py "Main case/file processing table with upload and status information"));
     (py "key_columns",
       PList [PStr (py "case_id"); PStr (py "customer_id"); PStr (py "user_id"); PStr (py "queue_name"); PStr (py "file_name")]);
     (py "relationships",
       PDict [
         (py "customer_master", PStr (py "customer_id"));
         (py "document_classification", PStr (py "case_id"));
         (py "di_audit", PStr (py "case_id")) ]) ]);
  (py "document_classification", [
     (py "description",
       PStr (py "Individual documents within cases with classification and parsing results"));
     (py "key_columns",
       PList [PStr (py "id"); PStr (py "customer_id"); PStr (py "case_id"); PStr (py "document_classification_id"); PStr (py "documnt_class")]);
     (py "relationships",
       PDict [
         (py "customer_master", PStr (py "customer_id"));
         (py "case_master", PStr (py "case_id")) ]) ])
].

Section MoreTools.

Variable rt : Runtime.

(** [str(v)], as an f-string formats a value *)
Variable py_str : pyval -> str.

(** ** agent.py: the notepad tool *)

(** [manage_notes]; the default [content=""] is filled in by the caller. *)
Definition manage_notes (action content : str) : IO dict :=
  print ([10; 0x1F4DD] ++ py " Notes Operation: " ++ action) ;;
  when (truthy content) (print (py "Content: " ++ content)) ;;
  if str_eqb action (py "read") then
    print ([10] ++ py "Enter current notes content for testing:") ;;
    notes <- input (py "> ") ;;
    t <- datetime_now ;;
    ret [ (py "status", PStr (py "success"));
          (py "action", PStr (py "read"));
          (py "current_notes", PStr notes);
          (py "timestamp", PStr (isoformat rt t)) ]
  else
    print ([10] ++ py "Enter result of notes operation (e.g., saved, failed, etc.):") ;;
    outcome <- input (py "> ") ;;
    t <- datetime_now ;;
    let result := [
      (py "status", PStr (if negb (str_in (py "fail") (lower rt outcome))
                          then py "success" else py "error"));
      (py "action", PStr action);
      (py "message", PStr outcome);
      (py "timestamp", PStr (isoformat rt t))
    ] in
    let result :=
      if mem action [py "write"; py "append"]
      then dict_set (py "content") (PStr content) result
      else result in
    print ([10; 0x1F4DD] ++ py " Notes Result: " ++ outcome) ;;
    ret result.

(** ** sql_agent.py: the analysis tools *)

(** [analyze_query_performance]; the list stored under "suggestions" is the
    one the rules append to, so the record holds the final list. *)
Definition analyze_query_performance (query : str) (results : pyval) : IO dict :=
  print ([10; 0x1F4CA] ++ py " Analyzing Query Performance") ;;
  print (py "Query: " ++ query) ;;
  print (py "Enter performance metrics (execution time, rows scanned, etc.):") ;;
  metrics_input <- input (py "> ") ;;
  t <- datetime_now ;;
  let query_lower := lower rt query in
  let suggestions : list str := [] in
  let suggestions :=
    if str_in (py "select *") query_lower
    then suggestions
           ++ [py "Consider selecting specific columns instead of SELECT *"]
    else suggestions in
  let suggestions :=
    if negb (str_in (py "where") query_lower)
       && (str_in (py "update") query_lower || str_in (py "delete") query_lower)
    then suggestions
           ++ [py "WARNING: Update/Delete without WHERE clause affects all rows"]
    else suggestions in
  let suggestions :=
    if str_in (py "join") query_lower
       && negb (str_in (py "index") (lower rt metrics_input))
    then suggestions
           ++ [py "Consider adding indexes on join columns for better performance"]
    else suggestions in
  let suggestions :=
    if str_in (py "order by") query_lower
       && negb (str_in (py "limit") query_lower)
    then suggestions
           ++ [py "Consider adding LIMIT clause for large result sets"]
    else suggestions in
  let analysis := [
    (py "query", PStr query);
    (py "performance_metrics", PStr metrics_input);
    (py "suggestions", PList (map PStr suggestions));
    (py "analyzed_at", PStr (isoformat rt t))
  ] in
  print ([10; 0x1F4CA] ++ py " Performance Analysis Complete") ;;
  for_each suggestions
    (fun suggestion => print ([0x1F4A1] ++ py " " ++ suggestion)) ;;
  ret analysis.

Definition get_table_schema (table_name : str) : IO dict :=
  print ([10; 0x1F4CB] ++ py " Getting Schema for Table: " ++ table_name) ;;
  match table_get table_name DATABASE_SCHEMA with
  | Some entry =>
      let schema_info := dict_set (py "table_name") (PStr table_name) entry in
      print (py "Enter actual column details (JSON format) or press Enter for schema info:") ;;
      user_input <- input (py "> ") ;;
      schema_info <-
        (if truthy (strip rt user_input) then
           match json_loads rt user_input with
           | Loaded column_details =>
               ret (dict_set (py "columns") column_details schema_info)
           | JSONDecodeError =>
               ret (dict_set (py "columns")
                      (PDict [(py "error", PStr (py "Invalid JSON format"))])
                      schema_info)
           | LoadsRaised e => raise e
           end
         else ret schema_info) ;;
      print ([10; 0x1F4CB] ++ py " Schema Info for " ++ table_name ++ py ":") ;;
      description <- getitem (py "description") schema_info ;;
      print (py "Description: " ++ py_str description) ;;
      key_columns <- getitem (py "key_columns") schema_info ;;
      print (py "Key Columns: " ++ py_str key_columns) ;;
      relationships <- getitem (py "relationships") schema_info ;;
      print (py "Relationships: " ++ py_str relationships) ;;
      ret schema_info
  | None =>
      let result := [
        (py "table_name", PStr table_name);
        (py "error", PStr (py "Table '" ++ table_name
                             ++ py "' not found in known schema"));
        (py "available_tables", PList (map PStr (map fst DATABASE_SCHEMA)))
      ] in
      print ([10; 0x274C] ++ py " Table '" ++ table_name ++ py "' not found") ;;
      print (py "Available tables: " ++ join (py ", ") (map fst DATABASE_SCHEMA)) ;;
      ret result
  end.

(** [suggest_query_improvements]; the defaults [error_message=""] and
    [context=""] are filled in by the caller. *)
Definition suggest_query_improvements
    (original_query error_message context : str) : IO dict :=
  print ([10; 0x1F527] ++ py " Analyzing Query for Improvements") ;;
  print (py "Original Query: " ++ original_query) ;;
  when (truthy error_message) (print (py "Error: " ++ error_message)) ;;
  when (truthy context) (print (py "Context: " ++ context)) ;;
  t <- datetime_now ;;
  let query_lower := lower rt original_query in
  let fixes : list str := [] in
  let fixes :=
    if str_in (py "column") (lower rt error_message)
       && str_in (py "does not exist") (lower rt error_message)
    then fixes ++ [py "Check column names and table aliases"]
               ++ [py "Use get_table_schema() to verify column names"]
    else fixes in
  let fixes :=
    if str_in (py "table") (lower rt error_message)
       && str_in (py "does not exist") (lower rt error_message)
    then fixes ++ [py "Check table name spelling"]
               ++ [py "Available tables: "
                     ++ join (py ", ") (map fst DATABASE_SCHEMA)]
    else fixes in
  let fixes :=
    if str_in (py "syntax error") (lower rt error_message)
    then fixes ++ [py "Check SQL syntax - missing commas, parentheses, or keywords"]
    else fixes in
  let fixes :=
    if str_in (py "select *") query_lower
    then fixes ++ [py "Replace SELECT * with specific column names"]
    else fixes in
  let fixes :=
    if str_in (py "join") query_lower
    then fixes ++ [py "Ensure proper JOIN conditions and consider indexes"]
    else fixes in
  let suggestions := [
    (py "original_query", PStr original_query);
    (py "error_message", PStr error_message);
    (py "context", PStr context);
    (py "suggested_fixes", PList (map PStr fixes));
    (py "alternative_queries", PList []);
    (py "analyzed_at", PStr (isoformat rt t))
  ] in
  print ([10] ++ py "Enter manual suggestions or alternative queries:") ;;
  manual_input <- input (py "> ") ;;
  let suggestions :=
    if truthy (strip rt manual_input)
    then dict_set (py "manual_suggestions") (PStr manual_input) suggestions
    else suggestions in
  print ([10; 0x1F527] ++ py " Analysis Complete") ;;
  for_each fixes (fun fix_ => print ([0x1F6E0; 0xFE0F] ++ py " " ++ fix_)) ;;
  ret suggestions.

(** The keyword table of [build_smart_query]. *)
Definition table_keywords : list (str * list str) := [
  (py "customer", [py "customer_master"; py "customer_preferences"]);
  (py "case", [py "case_master"]);
  (py "document", [py "document_classification"]);
  (py "api", [py "api_master"; py "pipeline_master"]);
  (py "pipeline", [py "pipeline_master"; py "pipleline_customer_config"]);
  (py "audit", [py "di_audit"]);
  (py "config", [py "customer_preferences"; py "pipleline_customer_config"])
].

(** [any(word in text for word in words)] *)
Definition any_in (words : list str) (text : str) : bool :=
  existsb (fun word => str_in word text) words.

(** Truth value of an optional list or dictionary: neither [None] nor empty. *)
Definition nonempty {A} (l : option (list A)) : bool :=
  match l with
  | Some (_ :: _) => true
  | _ => false
  end.

(** [build_smart_query]; [None] stands for an argument left at its default
    [None]. *)
Definition build_smart_query (objective : str)
    (tables_involved : option (list str)) (filters : option dict) : IO dict :=
  print ([10; 0x1F9E0] ++ py " Building Smart Query") ;;
  print (py "Objective: " ++ objective) ;;
  when (nonempty tables_involved)
    (print (py "Tables: "
              ++ join (py ", ") (match tables_involved with
                                 | Some l => l
                                 | None => []
                                 end))) ;;
  when (nonempty filters)
    (print (py "Filters: "
              ++ py_str (PDict (match filters with
                                | Some d => d
                                | None => []
                                end)))) ;;
  let objective_lower := lower rt objective in
  let suggested_tables :=
    fold_left
      (fun suggested (entry : str * list str) =>
         let (keyword, tables) := entry in
         if str_in keyword objective_lower then suggested ++ tables
         else suggested)
      table_keywords [] in
  let suggested_tables := fromkeys suggested_tables in
  t <- datetime_now ;;
  let query_builder := [
    (py "objective", PStr objective);
    (py "suggested_tables", PList (map PStr suggested_tables));
    (py "tables_involved",
       PList (map PStr (if nonempty tables_involved
                        then match tables_involved with
                             | Some l => l
                             | None => []
                             end
                        else suggested_tables)));
    (py "filters",
       PDict (if nonempty filters
              then match filters with Some d => d | None => [] end
              else []));
    (py "query_type", PStr (py "SELECT"));
    (py "generated_at", PStr (isoformat rt t))
  ] in
  let query_builder :=
    if any_in [py "count"; py "how many"; py "total"] objective_lower
    then dict_set (py "query_type") (PStr (py "COUNT")) query_builder
    else if any_in [py "update"; py "modify"; py "change"] objective_lower
    then dict_set (py "query_type") (PStr (py "UPDATE")) query_builder
    else if any_in [py "delete"; py "remove"] objective_lower
    then dict_set (py "query_type") (PStr (py "DELETE")) query_builder
    else if any_in [py "insert"; py "add"; py "create"] objective_lower
    then dict_set (py "query_type") (PStr (py "INSERT")) query_builder
    else query_builder in
  print ([10] ++ py "Query Analysis:") ;;
  query_type <- getitem (py "query_type") query_builder ;;
  print (py "Type: " ++ py_str query_type) ;;
  print (py "Suggested Tables: " ++ join (py ", ") suggested_tables) ;;
  print ([10] ++ py "Enter the generated SQL query based on this analysis:") ;;
  generated_query <- input (py "> ") ;;
  let query_builder :=
    dict_set (py "generated_query") (PStr generated_query) query_builder in
  let query_builder :=
    dict_set (py "explanation") (PStr (py "Generated query to: " ++ objective))
      query_builder in
  print ([10; 0x1F9E0] ++ py " Smart Query Generated") ;;
  print (py "Query: " ++ generated_query) ;;
  ret query_builder.

End MoreTools.

(** ** contact_based_runner.py: contacts and interview setups *)

Module ContactInfo.
Record t := {
  name : str;
  email : str;
  phone : str;
  role : str;
  company : str
}.
End ContactInfo.

Module InterviewSetup.
Record t := {
  hr_contact : ContactInfo.t;
  interviewer : ContactInfo.t;
  interviewee : ContactInfo.t;
  position : str;
  interview_type : str;
  preferred_duration : Z;
  company : str
}.
End InterviewSetup.

Definition MOCK_HR_CONTACTS : list ContactInfo.t := [
  {| ContactInfo.name := py "Jennifer Martinez";
     ContactInfo.email := py "j.martinez@techcorp.com";
     ContactInfo.phone := py "+1-555-HR01";
     ContactInfo.role := py "Senior HR Manager";
     ContactInfo.company := py "TechCorp Inc." |};
  {| ContactInfo.name := py "Michael Thompson";
     ContactInfo.email := py "m.thompson@innovatesoft.com";
     ContactInfo.phone := py "+1-555-HR02";
     ContactInfo.role := py "Talent Acquisition Lead";
     ContactInfo.company := py "InnovateSoft Solutions" |};
  {| ContactInfo.name := py "Sarah Chen";
     ContactInfo.email := py "s.chen@datatech.io";
     ContactInfo.phone := py "+1-555-HR03";
     ContactInfo.role := py "HR Business Partner";
     ContactInfo.company := py "DataTech Analytics" |};
  {| ContactInfo.name := py "David Rodriguez";
     ContactInfo.email := py "d.rodriguez@cloudnext.com";
     ContactInfo.phone := py "+1-555-HR04";
     ContactInfo.role := py "Recruitment Manager";
     ContactInfo.company := py "CloudNext Technologies" |};
  {| ContactInfo.name := py "Emily Johnson";
     ContactInfo.email := py "e.johnson@fintech.pro";
     ContactInfo.phone := py "+1-555-HR05";
     ContactInfo.role := py "People Operations Manager";
     ContactInfo.company := py "FinTech Pro" |}
].

Definition MOCK_INTERVIEWERS : list ContactInfo.t := [
  {| ContactInfo.name := py "Alex Kim";
     ContactInfo.email := py "a.kim@techcorp.com";
     ContactInfo.phone := py "+1-555-ENG01";
     ContactInfo.role := py "Senior Software Engineer";
     ContactInfo.company := py "TechCorp Inc." |};
  {| ContactInfo.name := py "Lisa Wang";
     ContactInfo.email := py "l.wang@innovatesoft.com";
     ContactInfo.phone := py "+1-555-ENG02";
     ContactInfo.role := py "Tech Lead";
     ContactInfo.company := py "InnovateSoft Solutions" |};
  {| ContactInfo.name := py "Robert Brown";
     ContactInfo.email := py "r.brown@datatech.io";
     ContactInfo.phone := py "+1-555-ENG03";
     ContactInfo.role := py "Principal Engineer";
     ContactInfo.company := py "DataTech Analytics" |};
  {| ContactInfo.name := py "Maria Garcia";
     ContactInfo.email := py "m.garcia@cloudnext.com";
     ContactInfo.phone := py "+1-555-ENG04";
     ContactInfo.role := py "Engineering Manager";
     ContactInfo.company := py "CloudNext Technologies" |};
  {| ContactInfo.name := py "James Wilson";
     ContactInfo.email := py "j.wilson@fintech.pro";
     ContactInfo.phone := py "+1-555-ENG05";
     ContactInfo.role := py "Staff Software Engineer";
     ContactInfo.company := py "FinTech Pro" |}
].

Definition MOCK_CANDIDATES : list ContactInfo.t := [
  {| ContactInfo.name := py "Sarah Johnson";
     ContactInfo.email := py "sarah.johnson@email.com";
     ContactInfo.phone := py "+1-555-0123";
     ContactInfo.role := py "Frontend Developer Candidate";
     ContactInfo.company := py "External" |};
  {| ContactInfo.name := py "Carlos Mendez";
     ContactInfo.email := py "carlos.m@gmail.com";
     ContactInfo.phone := py "+1-555-0456";
     ContactInfo.role := py "Backend Developer Candidate";
     ContactInfo.company := py "External" |};
  {| ContactInfo.name := py "Priya Patel";
     ContactInfo.email := py "priya.patel@outlook.com";
     ContactInfo.phone := py "+1-555-0789";
     ContactInfo.role := py "Full Stack Developer Candidate";
     ContactInfo.company := py "External" |};
  {| ContactInfo.name := py "Kevin O'Brien";
     ContactInfo.email := py "kevin.obrien@yahoo.com";
     ContactInfo.phone := py "+1-555-0321";
     ContactInfo.role := py "DevOps Engineer Candidate";
     ContactInfo.company := py "External" |};
  {| ContactInfo.name := py "Aisha Hassan";
     ContactInfo.email := py "aisha.hassan@protonmail.com";
     ContactInfo.phone := py "+1-555-0654";
     ContactInfo.role := py "Data Scientist Candidate";
     ContactInfo.company := py "External" |}
].

Definition MOCK_POSITIONS : list str := [
  py "Senior Frontend Developer";
  py "Backend Software Engineer";
  py "Full Stack Developer";
  py "DevOps Engineer";
  py "Data Scientist";
  py "Mobile App Developer";
  py "UI/UX Designer";
  py "Product Manager";
  py "Engineering Manager";
  py "Cloud Architect"
].

(** [random.choice(seq)], for the number [r] that the generator draws:
    [IndexError] on an empty sequence. *)
Definition choice {A} (r : nat) (seq : list A) : A + exn :=
  match nth_error seq (r mod length seq) with
  | Some x => inl x
  | None => inr (OtherError (py "Cannot choose from an empty sequence"))
  end.

(** [seq[0]]: [IndexError] on an empty list. *)
Definition first_item {A} (seq : list A) : A + exn :=
  match seq with
  | x :: _ => inl x
  | [] => inr (OtherError (py "list index out of range"))
  end.

(** [[i for i in MOCK_INTERVIEWERS if i.company == company]] *)
Definition interviewers_of (company : str) : list ContactInfo.t :=
  filter (fun i => str_eqb (ContactInfo.company i) company) MOCK_INTERVIEWERS.

(** Sequencing of computations that may raise. *)
Definition and_then {A B} (r : A + exn) (k : A -> B + exn) : B + exn :=
  match r with
  | inl a => k a
  | inr e => inr e
  end.

Definition create_sample_setup : InterviewSetup.t + exn :=
  and_then (first_item MOCK_HR_CONTACTS) (fun hr =>
  and_then (first_item MOCK_INTERVIEWERS) (fun interviewer =>
  and_then (first_item MOCK_CANDIDATES) (fun candidate =>
  and_then (first_item MOCK_POSITIONS) (fun position =>
  inl {| InterviewSetup.hr_contact := hr;
         InterviewSetup.interviewer := interviewer;
         InterviewSetup.interviewee := candidate;
         InterviewSetup.position := position;
         InterviewSetup.interview_type := py "technical";
         InterviewSetup.preferred_duration := 90;
         InterviewSetup.company := py "TechCorp Inc." |})))).

(** [create_random_setup], for the six numbers that the generator draws, in
    the order of the calls to [random.choice]. *)
Definition create_random_setup (r1 r2 r3 r4 r5 r6 : nat)
    : InterviewSetup.t + exn :=
  and_then (choice r1 MOCK_HR_CONTACTS) (fun hr =>
  and_then (choice r2 (interviewers_of (ContactInfo.company hr)))
    (fun interviewer =>
  and_then (choice r3 MOCK_CANDIDATES) (fun candidate =>
  and_then (choice r4 MOCK_POSITIONS) (fun position =>
  and_then (choice r5 [py "technical"; py "behavioral"; py "system design";
                       py "cultural fit"]) (fun interview_type =>
  and_then (choice r6 [45; 60; 90; 120]%Z) (fun preferred_duration =>
  inl {| InterviewSetup.hr_contact := hr;
         InterviewSetup.interviewer := interviewer;
         InterviewSetup.interviewee := candidate;
         InterviewSetup.position := position;
         InterviewSetup.interview_type := interview_type;
         InterviewSetup.preferred_duration := preferred_duration;
         InterviewSetup.company := ContactInfo.company hr |})))))).

(** [create_custom_setup], for the two numbers that the generator draws. *)
Definition create_custom_setup (hr_index : Z) (r1 r2 : nat)
    : InterviewSetup.t + exn :=
  if ((hr_index <? 1) || (Z.of_nat (length MOCK_HR_CONTACTS) <? hr_index))%Z
  then inr (ValueError (py "Invalid HR contact index"))
  else
    and_then
      (match nth_error MOCK_HR_CONTACTS (Z.to_nat (hr_index - 1)) with
       | Some hr => inl hr
       | None => inr (OtherError (py "list index out of range"))
       end) (fun hr =>
    let company_interviewers := interviewers_of (ContactInfo.company hr) in
    and_then
      (match company_interviewers with
       | i :: _ => inl i
       | [] => first_item MOCK_INTERVIEWERS
       end) (fun interviewer =>
    and_then (choice r1 MOCK_CANDIDATES) (fun candidate =>
    and_then (choice r2 MOCK_POSITIONS) (fun position =>
    inl {| InterviewSetup.hr_contact := hr;
           InterviewSetup.interviewer := interviewer;
           InterviewSetup.interviewee := candidate;
           InterviewSetup.position := position;
           InterviewSetup.interview_type := py "technical";
           InterviewSetup.preferred_duration := 60;
           InterviewSetup.company := ContactInfo.company hr |})))).

(** [get_contacts_from_input]; the fields left out of the constructor call
    take the defaults of the dataclass. *)
Definition get_contacts_from_input : IO InterviewSetup.t :=
  print ([0x1F4CB] ++ py " Please enter the contact details for interview coordination:") ;;
  print (concat (repeat (py "=") 55%nat)) ;;
  print ([10; 0x1F454] ++ py " HR Contact Information:") ;;
  hr_name <- input (py "Name: ") ;;
  hr_email <- input (py "Email: ") ;;
  hr_phone <- input (py "Phone: ") ;;
  hr_company <- input (py "Company: ") ;;
  print ([10; 0x1F468; 0x200D; 0x1F4BB] ++ py " Interviewer Information:") ;;
  int_name <- input (py "Name: ") ;;
  int_email <- input (py "Email: ") ;;
  int_phone <- input (py "Phone: ") ;;
  print ([10; 0x1F464] ++ py " Candidate Information:") ;;
  candidate_name <- input (py "Name: ") ;;
  candidate_email <- input (py "Email: ") ;;
  candidate_phone <- input (py "Phone: ") ;;
  print ([10; 0x1F4BC] ++ py " Position Information:") ;;
  position <- input (py "Position title: ") ;;
  line <- input (py "Interview type [technical]: ") ;;
  let interview_type := if truthy line then line else py "technical" in
  ret {| InterviewSetup.hr_contact :=
           {| ContactInfo.name := hr_name; ContactInfo.email := hr_email;
              ContactInfo.phone := hr_phone;
              ContactInfo.role := py "HR Manager";
              ContactInfo.company := hr_company |};
         InterviewSetup.interviewer :=
           {| ContactInfo.name := int_name; ContactInfo.email := int_email;
              ContactInfo.phone := int_phone;
              ContactInfo.role := py "Interviewer";
              ContactInfo.company := hr_company |};
         InterviewSetup.interviewee :=
           {| ContactInfo.name := candidate_name;
              ContactInfo.email := candidate_email;
              ContactInfo.phone := candidate_phone;
              ContactInfo.role := py "Candidate";
              ContactInfo.company := py "External" |};
         InterviewSetup.position := position;
         InterviewSetup.interview_type := interview_type;
         InterviewSetup.preferred_duration := 60;
         InterviewSetup.company := hr_company |}.

(** A formatter to evaluate the tools with: strings and integers as they
    are, anything else as a placeholder.  It only reaches standard output. *)
Definition plain_str (v : pyval) : str :=
  match v with
  | PStr s => s
  | PInt z => str_of_int z
  | _ => py "<value>"
  end.

(** ** A runtime to evaluate the tools on ASCII input

    Code points above 127 are left unchanged by [lower] and are not
    whitespace, digits are the ASCII digits, dates are printed as their
    fields, and [json.loads] accepts nothing.  On ASCII text the string
    methods do not consult the runtime. *)
Definition ascii_digit (c : codepoint) : bool := (48 <=? c) && (c <=? 57).

Definition plain_runtime : Runtime := {|
  lower_full := fun _ c _ => [c];
  isspace_full := fun _ => false;
  strftime := fun d _ => str_of_int (Z.of_N (year d));
  isoformat := fun d => str_of_int (Z.of_N (year d));
  isdigit := fun s => match s with [] => false | _ => forallb ascii_digit s end;
  int_of_str := fun s =>
    inl (fold_left (fun acc c => (10 * acc + Z.of_N (c - 48))%Z) s 0%Z);
  json_loads := fun _ => JSONDecodeError
|}.

(** The JSON text [{"rows": [1, 2]}]. *)
Definition rows_json : str :=
  py "{" ++ [34] ++ py "rows" ++ [34] ++ py ": [1, 2]}".

(** A runtime whose [json.loads] knows this one text. *)
Definition json_runtime : Runtime := {|
  lower_full := lower_full plain_runtime;
  isspace_full := isspace_full plain_runtime;
  strftime := strftime plain_runtime;
  isoformat := isoformat plain_runtime;
  isdigit := isdigit plain_runtime;
  int_of_str := int_of_str plain_runtime;
  json_loads := fun s =>
    if str_eqb s rows_json
    then Loaded (PDict [(py "rows", PList [PInt 1; PInt 2])])
    else JSONDecodeError
|}.

(** A console with the given lines waiting on standard input. *)
Definition console (lines : list str) : world := {|
  stdin := lines;
  stdout := [];
  clock := fun n => {| year := 2025; month := 1; day := 1; hour := 9;
                       minute := N.of_nat n; second := 0; microsecond := 0 |};
  ticks := 0
|}.

(** A second console, with earlier output, another clock and an extra line
    waiting. *)
Definition busy_console (lines : list str) : world := {|
  stdin := lines ++ [py "left over"];
  stdout := [py "earlier output"];
  clock := fun _ => {| year := 2031; month := 12; day := 24; hour := 23;
                       minute := 59; second := 59; microsecond := 7 |};
  ticks := 4
|}.

(** A field of the record that a tool run returned, if it returned one. *)
Definition field (k : string) (x : result dict * world) : option pyval :=
  match fst x with
  | Ok d => dict_get (py k) d
  | Raise _ => None
  end.

(** ** Vocabulary of the specification *)

(** The lowercased message type or the lowercased subject of an email
    contains the keyword. *)
Definition Mentions (rt : Runtime) (kw message_type subject : str) : Prop :=
  Substring kw (lower rt message_type) \/ Substring kw (lower rt subject).

(** The role rule in the specification's words, one table for both channels:
    contains "interviewer" -> Interviewer, "candidate"/"applicant" ->
    Candidate, "hr"/"recruiter" -> HR/Recruiter, else the channel's default;
    the text is the purpose of a call or the subject of an email. *)
Definition role_label_spec (rt : Runtime) (default text : str) : str :=
  if str_in (py "interviewer") (lower rt text) then py "Interviewer"
  else if str_in (py "candidate") (lower rt text)
          || str_in (py "applicant") (lower rt text) then py "Candidate"
  else if str_in (py "hr") (lower rt text)
          || str_in (py "recruiter") (lower rt text) then py "HR/Recruiter"
  else default.

(** * Properties *)

(** ** Substring search *)

Lemma startswith_spec (s prefix : str) :
  startswith s prefix = true <-> exists post, s = prefix ++ post.
Proof.
  revert s; induction prefix as [|p prefix IH]; intros [|c s]; simpl.
  - split; [intros _; now exists [] | reflexivity].
  - split; [intros _; now exists (c :: s) | reflexivity].
  - split; [discriminate | intros [post H]; discriminate].
  - rewrite andb_true_iff, N.eqb_eq, IH. split.
    + intros [-> [post ->]]. now exists post.
    + intros [post H]. injection H as -> ->. split; [reflexivity | now exists post].
Qed.

Lemma str_in_spec (needle hay : str) :
  str_in needle hay = true <-> Substring needle hay.
Proof.
  unfold Substring. induction hay as [|c hay IH].
  - cbn [str_in]. rewrite orb_false_r, startswith_spec. split.
    + intros [post H]. now exists [], post.
    + intros [pre [post H]]. destruct pre; [now exists post | discriminate].
  - cbn [str_in]. rewrite orb_true_iff, startswith_spec, IH. split.
    + intros [[post H] | [pre [post H]]].
      * now exists [], post.
      * exists (c :: pre), post. now rewrite H.
    + intros [[|x pre] [post H]].
      * left. now exists post.
      * right. injection H as -> ->. now exists pre, post.
Qed.

Lemma str_in_false (needle hay : str) :
  str_in needle hay = false <-> ~ Substring needle hay.
Proof.
  rewrite <- str_in_spec. destruct (str_in needle hay); split; congruence.
Qed.

Lemma str_eqb_eq (a b : str) : str_eqb a b = true <-> a = b.
Proof.
  revert b; induction a as [|x a IH]; intros [|y b]; simpl;
    try (split; [discriminate | discriminate]); try (split; reflexivity).
  rewrite andb_true_iff, N.eqb_eq, IH. split.
  - now intros [-> ->].
  - intros H; injection H as -> ->; auto.
Qed.

(** Unfolds the console operations of a tool body. *)
Ltac run_io :=
  repeat (cbv beta iota delta
            [bind print write input ret raise datetime_now when try_except lift];
          cbn [stdin stdout clock ticks]).

(** Case analysis on the condition of a pending [if c: print(...)]. *)
Ltac split_when :=
  match goal with
  | |- context [(if ?c then _ else _) ?x] => destruct c
  end.

Section Properties.

Variable rt : Runtime.

(** The lowercase of the empty string is the empty string. *)
Lemma lower_nil : lower rt [] = [].
Proof. reflexivity. Qed.

(** ** Contact calls *)

(** C1: a contact call returns a record whose status is "no_answer" when the
    lowercased outcome contains "no answer" or "failed", and "success" for
    every other outcome, the empty one included. *)
Theorem call_contact_status contact_name phone_number purpose w outcome rest :
  stdin w = outcome :: rest ->
  exists r w',
    call_contact rt contact_name phone_number purpose w = (Ok r, w') /\
    (Substring (py "no answer") (lower rt outcome)
     \/ Substring (py "failed") (lower rt outcome) ->
     dict_get (py "status") r = Some (PStr (py "no_answer"))) /\
    (~ (Substring (py "no answer") (lower rt outcome)
        \/ Substring (py "failed") (lower rt outcome)) ->
     dict_get (py "status") r = Some (PStr (py "success"))) /\
    (outcome = [] -> dict_get (py "status") r = Some (PStr (py "success"))).
Proof.
  intros Hin. unfold call_contact. run_io. rewrite Hin.
  eexists; eexists; split; [reflexivity|].
  change (dict_get (py "status") _) with
    (Some (PStr (if negb (str_in (py "no answer") (lower rt outcome))
                    && negb (str_in (py "failed") (lower rt outcome))
                 then py "success" else py "no_answer"))).
  rewrite <- !str_in_spec.
  destruct (str_in (py "no answer") (lower rt outcome)) eqn:E1;
    destruct (str_in (py "failed") (lower rt outcome)) eqn:E2; cbn [negb andb];
    repeat split; intros H; try reflexivity;
    try (exfalso; apply H; auto; fail);
    try (destruct H; discriminate);
    subst outcome; discriminate.
Qed.

(** C6: the next step of a contact call is "Follow up via email" exactly
    when its status is "no_answer", and "Proceed with scheduling" exactly when
    its status is "success". *)
Theorem call_contact_next_steps contact_name phone_number purpose w outcome rest :
  stdin w = outcome :: rest ->
  exists r w',
    call_contact rt contact_name phone_number purpose w = (Ok r, w') /\
    (dict_get (py "next_steps") r = Some (PStr (py "Follow up via email"))
     <-> dict_get (py "status") r = Some (PStr (py "no_answer"))) /\
    (dict_get (py "next_steps") r = Some (PStr (py "Proceed with scheduling"))
     <-> dict_get (py "status") r = Some (PStr (py "success"))).
Proof.
  intros Hin. unfold call_contact. run_io. rewrite Hin.
  eexists; eexists; split; [reflexivity|].
  set (success := negb (str_in (py "no answer") (lower rt outcome))
                  && negb (str_in (py "failed") (lower rt outcome))).
  change (dict_get (py "status") _) with
    (Some (PStr (if success then py "success" else py "no_answer"))).
  change (dict_get (py "next_steps") _) with
    (Some (PStr (if negb success then py "Follow up via email"
                 else py "Proceed with scheduling"))).
  destruct success; cbn [negb]; repeat split; intros H;
    try reflexivity; discriminate H.
Qed.

(** C9: the duration of a contact call is 5 minutes when its status is
    "success" and 0 when it is "no_answer"; it is positive exactly when the
    call is classified as successful. *)
Theorem call_contact_duration contact_name phone_number purpose w outcome rest :
  stdin w = outcome :: rest ->
  exists r w' d,
    call_contact rt contact_name phone_number purpose w = (Ok r, w') /\
    dict_get (py "duration_minutes") r = Some (PInt d) /\
    ((dict_get (py "status") r = Some (PStr (py "success")) /\ d = 5%Z)
     \/ (dict_get (py "status") r = Some (PStr (py "no_answer")) /\ d = 0%Z)) /\
    ((0 < d)%Z <-> dict_get (py "status") r = Some (PStr (py "success"))).
Proof.
  intros Hin. unfold call_contact. run_io. rewrite Hin.
  set (success := negb (str_in (py "no answer") (lower rt outcome))
                  && negb (str_in (py "failed") (lower rt outcome))).
  exists [ (py "status", PStr (if success then py "success" else py "no_answer"));
           (py "contact_name", PStr contact_name);
           (py "contact_role",
             PStr (if str_in (py "interviewer") (lower rt purpose)
                   then py "Interviewer"
                   else if str_in (py "candidate") (lower rt purpose)
                   then py "Candidate"
                   else if str_in (py "hr") (lower rt purpose)
                           || str_in (py "recruiter") (lower rt purpose)
                   then py "HR/Recruiter" else py "Contact"));
           (py "phone_number", PStr phone_number);
           (py "discussion_summary", PStr outcome);
           (py "duration_minutes", PInt (if success then 5 else 0));
           (py "next_steps",
             PStr (if negb success then py "Follow up via email"
                   else py "Proceed with scheduling")) ].
  eexists; exists (if success then 5%Z else 0%Z).
  split; [reflexivity|]. split; [reflexivity|].
  change (dict_get (py "status") _) with
    (Some (PStr (if success then py "success" else py "no_answer"))).
  destruct success; split.
  - left; split; reflexivity.
  - split; [reflexivity | lia].
  - right; split; reflexivity.
  - split; [lia | discriminate].
Qed.

(** ** Scheduling attempts *)

(** C2: a scheduling attempt returns a record whose status is "conflict" when
    the lowercased outcome contains "conflict" or "fail", and "success" for
    every other outcome. *)
Theorem schedule_calendar_status
    candidate_name date time duration_minutes interview_type w outcome rest :
  stdin w = outcome :: rest ->
  exists r w',
    schedule_calendar rt candidate_name date time duration_minutes
      interview_type w = (Ok r, w') /\
    (Substring (py "conflict") (lower rt outcome)
     \/ Substring (py "fail") (lower rt outcome) ->
     dict_get (py "status") r = Some (PStr (py "conflict"))) /\
    (~ (Substring (py "conflict") (lower rt outcome)
        \/ Substring (py "fail") (lower rt outcome)) ->
     dict_get (py "status") r = Some (PStr (py "success"))).
Proof.
  intros Hin. unfold schedule_calendar. run_io. rewrite Hin.
  eexists; eexists; split; [reflexivity|].
  change (dict_get (py "status") _) with
    (Some (PStr (if negb (str_in (py "conflict") (lower rt outcome))
                    && negb (str_in (py "fail") (lower rt outcome))
                 then py "success" else py "conflict"))).
  rewrite <- !str_in_spec.
  destruct (str_in (py "conflict") (lower rt outcome));
    destruct (str_in (py "fail") (lower rt outcome)); cbn [negb andb];
    split; intros H; try reflexivity;
    try (exfalso; apply H; auto; fail);
    destruct H; discriminate.
Qed.

(** ** Escalation *)

(** C3: an escalation step returns a record whose status is "cancelled" when
    the lowercased decision contains "cancel", and "resolved" for every other
    decision. *)
Theorem human_in_loop_status
    situation context suggested_actions w decision instructions rest :
  stdin w = decision :: instructions :: rest ->
  exists r w',
    human_in_loop rt situation context suggested_actions w = (Ok r, w') /\
    (Substring (py "cancel") (lower rt decision) ->
     dict_get (py "status") r = Some (PStr (py "cancelled"))) /\
    (~ Substring (py "cancel") (lower rt decision) ->
     dict_get (py "status") r = Some (PStr (py "resolved"))).
Proof.
  intros Hin. unfold human_in_loop.
  destruct (truthy suggested_actions); run_io; rewrite Hin; run_io;
    (destruct (truthy instructions) eqn:Ei; run_io;
     (eexists; eexists; split; [reflexivity|]);
     change (dict_get (py "status") _) with
       (Some (PStr (if negb (str_in (py "cancel") (lower rt decision))
                    then py "resolved" else py "cancelled")));
     rewrite <- !str_in_spec;
     destruct (str_in (py "cancel") (lower rt decision)); cbn [negb];
     split; intros H; try reflexivity; try discriminate H;
     exfalso; apply H; reflexivity).
Qed.

(** ** Email *)

(** What [strip] removes and what it leaves: the text is the stripped text
    between two runs of whitespace, and the stripped text neither starts nor
    ends with whitespace. *)
Lemma lstrip_spec (s : str) :
  exists l,
    s = l ++ lstrip rt s /\
    Forall (fun c => isspace rt c = true) l /\
    (forall c t, lstrip rt s = c :: t -> isspace rt c = false).
Proof.
  induction s as [|c s (l & Hs & Hl & Hh)]; simpl.
  - exists []. repeat split; [constructor | discriminate].
  - destruct (isspace rt c) eqn:E.
    + exists (c :: l). split; [simpl; congruence|].
      split; [now constructor | exact Hh].
    + exists []. split; [reflexivity|]. split; [constructor|].
      intros c' t H. now injection H as <- _.
Qed.

Lemma rstrip_spec (s : str) :
  exists r,
    s = rstrip rt s ++ r /\
    Forall (fun c => isspace rt c = true) r /\
    (forall t c, rstrip rt s = t ++ [c] -> isspace rt c = false).
Proof.
  destruct (lstrip_spec (rev s)) as (l & Hs & Hl & Hh).
  exists (rev l). unfold rstrip. split; [|split].
  - now rewrite <- rev_app_distr, <- Hs, rev_involutive.
  - now apply Forall_rev.
  - intros t c H. apply (f_equal (@rev codepoint)) in H.
    rewrite rev_involutive, rev_app_distr in H. exact (Hh _ _ H).
Qed.

Lemma strip_spec (s : str) :
  exists l r,
    s = l ++ strip rt s ++ r /\
    Forall (fun c => isspace rt c = true) l /\
    Forall (fun c => isspace rt c = true) r /\
    (forall c t, strip rt s = c :: t -> isspace rt c = false) /\
    (forall t c, strip rt s = t ++ [c] -> isspace rt c = false).
Proof.
  destruct (lstrip_spec s) as (l & Hs & Hl & Hh).
  destruct (rstrip_spec (lstrip rt s)) as (r & Hm & Hr & Ht).
  exists l, r. unfold strip. repeat split; try assumption.
  - now rewrite <- Hm.
  - intros c t H. rewrite H in Hm. exact (Hh _ _ Hm).
Qed.

Lemma lstrip_whitespace (s : str) :
  Forall (fun c => isspace rt c = true) s -> lstrip rt s = [].
Proof.
  induction 1 as [|c s Hc _ IH]; simpl; [reflexivity | now rewrite Hc].
Qed.

Lemma strip_whitespace (s : str) :
  Forall (fun c => isspace rt c = true) s -> strip rt s = [].
Proof.
  intros H. unfold strip, rstrip. now rewrite (lstrip_whitespace s H).
Qed.

(** Every record that [send_email] returns, in terms of the lines read. *)
Lemma send_email_inv recipient_email subject message_type additional_details w r w' :
  send_email rt recipient_email subject message_type additional_details w
    = (Ok r, w') ->
  exists outcome rest response response_time sent_at,
    stdin w = outcome :: rest /\
    r = [ (py "status",
            PStr (if negb (str_in (py "fail") (lower rt outcome))
                     && negb (str_in (py "error") (lower rt outcome))
                  then py "success" else py "failed"));
          (py "recipient_email", PStr recipient_email);
          (py "recipient_role",
            PStr (if any_word_in rt [py "interviewer"; py "interview availability"]
                       message_type subject then py "Interviewer"
                  else if any_word_in rt [py "candidate"; py "applicant"]
                       message_type subject then py "Candidate"
                  else if any_word_in rt [py "hr"; py "recruiter"; py "recruitment"]
                       message_type subject then py "HR/Recruiter"
                  else py "Recipient"));
          (py "subject", PStr subject);
          (py "message_type", PStr message_type);
          (py "delivery_confirmation", PStr outcome);
          (py "recipient_response", PStr response);
          (py "response_time", PStr response_time);
          (py "sent_at", PStr sent_at) ].
Proof.
  unfold send_email. run_io.
  destruct (stdin w) as [|outcome rest] eqn:Hin; [discriminate|]. run_io.
  destruct (negb (str_in (py "fail") (lower rt outcome))
            && negb (str_in (py "error") (lower rt outcome))) eqn:E; run_io.
  - destruct rest as [|reply rest]; [discriminate|]. run_io.
    destruct (truthy (strip rt reply)); run_io.
    + destruct rest as [|time rest]; [discriminate|]. run_io.
      split_when; run_io; try split_when; run_io;
        intros H; injection H as <- _;
        do 5 eexists; (split; [reflexivity|]); rewrite E; reflexivity.
    + split_when; run_io; try split_when; run_io;
        intros H; injection H as <- _;
        do 5 eexists; (split; [reflexivity|]); rewrite E; reflexivity.
  - split_when; run_io; try split_when; run_io;
      intros H; injection H as <- _;
      do 5 eexists; (split; [reflexivity|]); rewrite E; reflexivity.
Qed.

(** C7: when the delivery outcome contains neither "fail" nor "error" and the
    simulated reply is empty or whitespace only, [send_email] returns status
    "success" with the reply marked "No response received" and the response
    time "N/A"; no third line is read. *)
Theorem send_email_no_reply
    recipient_email subject message_type additional_details w outcome reply rest :
  stdin w = outcome :: reply :: rest ->
  ~ Substring (py "fail") (lower rt outcome) ->
  ~ Substring (py "error") (lower rt outcome) ->
  Forall (fun c => isspace rt c = true) reply ->
  exists r w',
    send_email rt recipient_email subject message_type additional_details w
      = (Ok r, w') /\
    dict_get (py "status") r = Some (PStr (py "success")) /\
    dict_get (py "recipient_response") r
      = Some (PStr (py "No response received")) /\
    dict_get (py "response_time") r = Some (PStr (py "N/A")) /\
    stdin w' = rest.
Proof.
  intros Hin Hf He Hws.
  apply str_in_false in Hf, He. apply strip_whitespace in Hws.
  unfold send_email. run_io. rewrite Hin. run_io.
  rewrite Hf, He. cbn [negb andb]. run_io.
  rewrite Hws. cbn [truthy]. run_io.
  change (dict_get (py "status") _) with (Some (PStr (py "success"))) at 1.
  change (str_eqb (py "success") (py "success")) with true.
  change (str_eqb (py "N/A") (py "N/A")) with true.
  cbn [negb]. run_io.
  eexists; eexists; split; [reflexivity|].
  repeat split; reflexivity.
Qed.

(** ** The SQL tool *)

(** C10: when the first line read by [execute_sql_query] starts with "error"
    once lowercased, the tool returns (it raises nothing) a record with status
    "error" whose message is the line without its first six characters,
    stripped, or "Unknown database error" when the line has at most six
    characters; only that one line is read. *)
Theorem execute_sql_query_error query explanation w outcome rest :
  stdin w = outcome :: rest ->
  (exists post, lower rt outcome = py "error" ++ post) ->
  exists r w',
    execute_sql_query rt query explanation w = (Ok r, w') /\
    dict_get (py "status") r = Some (PStr (py "error")) /\
    dict_get (py "error_message") r
      = Some (PStr (if (length outcome <=? 6)%nat
                    then py "Unknown database error"
                    else strip rt (skipn 6 outcome))) /\
    stdin w' = rest.
Proof.
  intros Hin Herr. apply startswith_spec in Herr.
  unfold execute_sql_query.
  destruct (truthy explanation); run_io; rewrite Hin; run_io;
    rewrite Herr; run_io;
    (eexists; eexists; split; [reflexivity|]);
    (split; [reflexivity|]);
    (split; [|reflexivity]);
    change (dict_get (py "error_message") _) with
      (Some (PStr (if (6 <? length outcome)%nat
                   then strip rt (skipn 6 outcome)
                   else py "Unknown database error")));
    rewrite Nat.leb_antisym; destruct (6 <? length outcome)%nat; reflexivity.
Qed.

(** ** Every returned record, in terms of the lines read *)

Lemma call_contact_inv contact_name phone_number purpose w r w' :
  call_contact rt contact_name phone_number purpose w = (Ok r, w') ->
  exists outcome rest,
    stdin w = outcome :: rest /\
    r = [ (py "status",
            PStr (if negb (str_in (py "no answer") (lower rt outcome))
                     && negb (str_in (py "failed") (lower rt outcome))
                  then py "success" else py "no_answer"));
          (py "contact_name", PStr contact_name);
          (py "contact_role",
            PStr (if str_in (py "interviewer") (lower rt purpose)
                  then py "Interviewer"
                  else if str_in (py "candidate") (lower rt purpose)
                  then py "Candidate"
                  else if str_in (py "hr") (lower rt purpose)
                          || str_in (py "recruiter") (lower rt purpose)
                  then py "HR/Recruiter" else py "Contact"));
          (py "phone_number", PStr phone_number);
          (py "discussion_summary", PStr outcome);
          (py "duration_minutes",
            PInt (if negb (str_in (py "no answer") (lower rt outcome))
                     && negb (str_in (py "failed") (lower rt outcome))
                  then 5 else 0));
          (py "next_steps",
            PStr (if negb (negb (str_in (py "no answer") (lower rt outcome))
                           && negb (str_in (py "failed") (lower rt outcome)))
                  then py "Follow up via email"
                  else py "Proceed with scheduling")) ].
Proof.
  unfold call_contact. run_io.
  destruct (stdin w) as [|outcome rest] eqn:Hin; [discriminate|]. run_io.
  intros H; injection H as <- _. now exists outcome, rest.
Qed.

Lemma schedule_calendar_inv
    candidate_name date time duration_minutes interview_type w r w' :
  schedule_calendar rt candidate_name date time duration_minutes
    interview_type w = (Ok r, w') ->
  exists outcome rest meeting_id,
    stdin w = outcome :: rest /\
    r = [ (py "status",
            PStr (if negb (str_in (py "conflict") (lower rt outcome))
                     && negb (str_in (py "fail") (lower rt outcome))
                  then py "success" else py "conflict"));
          (py "candidate_name", PStr candidate_name);
          (py "scheduled_date", PStr date);
          (py "scheduled_time", PStr time);
          (py "duration_minutes", PInt duration_minutes);
          (py "interview_type", PStr interview_type);
          (py "confirmation", PStr outcome);
          (py "meeting_id", PStr meeting_id) ].
Proof.
  unfold schedule_calendar. run_io.
  destruct (stdin w) as [|outcome rest] eqn:Hin; [discriminate|]. run_io.
  intros H; injection H as <- _. now exists outcome, rest; eexists.
Qed.

Lemma human_in_loop_inv situation context suggested_actions w r w' :
  human_in_loop rt situation context suggested_actions w = (Ok r, w') ->
  exists decision instructions rest timestamp,
    stdin w = decision :: instructions :: rest /\
    r = [ (py "status",
            PStr (if negb (str_in (py "cancel") (lower rt decision))
                  then py "resolved" else py "cancelled"));
          (py "decision", PStr decision);
          (py "additional_instructions",
            PStr (if truthy instructions then instructions else py "None"));
          (py "timestamp", PStr timestamp) ].
Proof.
  unfold human_in_loop.
  destruct (truthy suggested_actions); run_io;
    (destruct (stdin w) as [|decision [|instructions rest]] eqn:Hin;
     run_io; try discriminate);
    (destruct (truthy instructions) eqn:E; run_io;
     intros H; injection H as <- _;
     exists decision, instructions, rest; eexists; rewrite E;
     split; reflexivity).
Qed.

Lemma send_email_returns
    recipient_email subject message_type additional_details w :
  (3 <= length (stdin w))%nat ->
  exists r w',
    send_email rt recipient_email subject message_type additional_details w
      = (Ok r, w').
Proof.
  destruct (stdin w) as [|outcome [|reply [|time rest]]] eqn:Hin;
    cbn [length]; try lia; intros _.
  unfold send_email. run_io. rewrite Hin. run_io.
  destruct (negb (str_in (py "fail") (lower rt outcome))
            && negb (str_in (py "error") (lower rt outcome))); run_io;
    [destruct (truthy (strip rt reply)); run_io|];
    split_when; run_io; try split_when; run_io;
    eexists; eexists; reflexivity.
Qed.

(** ** Role labels *)

Lemma any_word_in_spec (words : list str) (message_type subject : str) :
  any_word_in rt words message_type subject = true
  <-> Exists (fun kw => Mentions rt kw message_type subject) words.
Proof.
  unfold any_word_in, Mentions. rewrite existsb_exists, Exists_exists.
  split; intros [kw [Hin H]]; exists kw; (split; [exact Hin|]).
  - now rewrite orb_true_iff, !str_in_spec in H.
  - now rewrite orb_true_iff, !str_in_spec.
Qed.

Lemma any_word_in_false (words : list str) (message_type subject : str) :
  any_word_in rt words message_type subject = false
  <-> ~ Exists (fun kw => Mentions rt kw message_type subject) words.
Proof.
  rewrite <- any_word_in_spec.
  destruct (any_word_in rt words message_type subject); split; congruence.
Qed.

(** C5, as the code has it: the role label of a contact call is derived from
    the lowercased purpose, "Interviewer" when it contains "interviewer",
    otherwise "Candidate" when it contains "candidate", otherwise
    "HR/Recruiter" when it contains "hr" or "recruiter", otherwise "Contact";
    the role label of an email is derived from the lowercased message type and
    subject, "Interviewer" when either contains "interviewer" or "interview
    availability", otherwise "Candidate" when either contains "candidate" or
    "applicant", otherwise "HR/Recruiter" when either contains "hr",
    "recruiter" or "recruitment", otherwise "Recipient".  A call returns its
    record as soon as one line can be read, an email as soon as three can. *)
Theorem role_label_by_channel :
  (forall contact_name phone_number purpose w,
     (stdin w <> [] ->
      exists r w',
        call_contact rt contact_name phone_number purpose w = (Ok r, w')) /\
     forall r w',
       call_contact rt contact_name phone_number purpose w = (Ok r, w') ->
       let has kw := Substring kw (lower rt purpose) in
       let role := dict_get (py "contact_role") r in
       (has (py "interviewer") -> role = Some (PStr (py "Interviewer"))) /\
       (~ has (py "interviewer") -> has (py "candidate") ->
        role = Some (PStr (py "Candidate"))) /\
       (~ has (py "interviewer") -> ~ has (py "candidate") ->
        has (py "hr") \/ has (py "recruiter") ->
        role = Some (PStr (py "HR/Recruiter"))) /\
       (~ has (py "interviewer") -> ~ has (py "candidate") ->
        ~ (has (py "hr") \/ has (py "recruiter")) ->
        role = Some (PStr (py "Contact"))))
  /\
  (forall recipient_email subject message_type additional_details w,
     ((3 <= length (stdin w))%nat ->
      exists r w',
        send_email rt recipient_email subject message_type
          additional_details w = (Ok r, w')) /\
     forall r w',
       send_email rt recipient_email subject message_type
         additional_details w = (Ok r, w') ->
       let has kw := Mentions rt kw message_type subject in
       let interviewer := has (py "interviewer") \/ has (py "interview availability") in
       let candidate := has (py "candidate") \/ has (py "applicant") in
       let recruiter := has (py "hr") \/ has (py "recruiter") \/ has (py "recruitment") in
       let role := dict_get (py "recipient_role") r in
       (interviewer -> role = Some (PStr (py "Interviewer"))) /\
       (~ interviewer -> candidate -> role = Some (PStr (py "Candidate"))) /\
       (~ interviewer -> ~ candidate -> recruiter ->
        role = Some (PStr (py "HR/Recruiter"))) /\
       (~ interviewer -> ~ candidate -> ~ recruiter ->
        role = Some (PStr (py "Recipient")))).
Proof.
  split.
  - intros contact_name phone_number purpose w. split.
    + destruct (stdin w) as [|outcome rest] eqn:Hin; [congruence|]. intros _.
      unfold call_contact. run_io. rewrite Hin.
      eexists; eexists; reflexivity.
    + intros r w' Hrun has role.
      apply call_contact_inv in Hrun. destruct Hrun as (outcome & rest & _ & ->).
      subst has role. cbv beta.
      change (dict_get (py "contact_role") _) with
        (Some (PStr (if str_in (py "interviewer") (lower rt purpose)
                     then py "Interviewer"
                     else if str_in (py "candidate") (lower rt purpose)
                     then py "Candidate"
                     else if str_in (py "hr") (lower rt purpose)
                             || str_in (py "recruiter") (lower rt purpose)
                     then py "HR/Recruiter" else py "Contact"))).
      rewrite <- !str_in_spec.
      destruct (str_in (py "interviewer") (lower rt purpose));
        destruct (str_in (py "candidate") (lower rt purpose));
        destruct (str_in (py "hr") (lower rt purpose));
        destruct (str_in (py "recruiter") (lower rt purpose));
        cbn [orb]; repeat split; intros; try reflexivity;
        try congruence; try tauto;
        match goal with H : _ \/ _ |- _ => destruct H; discriminate end.
  - intros recipient_email subject message_type additional_details w. split.
    + apply send_email_returns.
    + intros r w' Hrun has interviewer candidate recruiter role.
      apply send_email_inv in Hrun.
      destruct Hrun as (outcome & rest & response & time & sent & _ & ->).
      assert (Hi : interviewer <->
                   any_word_in rt [py "interviewer"; py "interview availability"]
                     message_type subject = true).
      { rewrite any_word_in_spec, !Exists_cons, Exists_nil.
        subst interviewer has; cbv beta; tauto. }
      assert (Hc : candidate <->
                   any_word_in rt [py "candidate"; py "applicant"]
                     message_type subject = true).
      { rewrite any_word_in_spec, !Exists_cons, Exists_nil.
        subst candidate has; cbv beta; tauto. }
      assert (Hr : recruiter <->
                   any_word_in rt [py "hr"; py "recruiter"; py "recruitment"]
                     message_type subject = true).
      { rewrite any_word_in_spec, !Exists_cons, Exists_nil.
        subst recruiter has; cbv beta; tauto. }
      clearbody interviewer candidate recruiter. subst role.
      change (dict_get (py "recipient_role") _) with
        (Some (PStr
           (if any_word_in rt [py "interviewer"; py "interview availability"]
                 message_type subject then py "Interviewer"
            else if any_word_in rt [py "candidate"; py "applicant"]
                 message_type subject then py "Candidate"
            else if any_word_in rt [py "hr"; py "recruiter"; py "recruitment"]
                 message_type subject then py "HR/Recruiter"
            else py "Recipient"))).
      rewrite Hi, Hc, Hr.
      destruct (any_word_in rt [py "interviewer"; py "interview availability"]
                  message_type subject);
        destruct (any_word_in rt [py "candidate"; py "applicant"]
                    message_type subject);
        destruct (any_word_in rt [py "hr"; py "recruiter"; py "recruitment"]
                    message_type subject);
        repeat split; intros; try reflexivity; congruence.
Qed.

(** ** The status depends on the outcome text only *)

(** C4: two runs of the same tool (contact call, scheduling, email or
    escalation) that read the same outcome text return records with the same
    status, whatever the other arguments, the further input lines and the
    clock are. *)
Theorem status_depends_on_outcome_only :
  (forall n1 p1 u1 n2 p2 u2 w1 w2 text rest1 rest2 r1 r2 w1' w2',
     stdin w1 = text :: rest1 -> stdin w2 = text :: rest2 ->
     call_contact rt n1 p1 u1 w1 = (Ok r1, w1') ->
     call_contact rt n2 p2 u2 w2 = (Ok r2, w2') ->
     exists s, dict_get (py "status") r1 = Some (PStr s)
               /\ dict_get (py "status") r2 = Some (PStr s))
  /\
  (forall c1 d1 t1 m1 k1 c2 d2 t2 m2 k2 w1 w2 text rest1 rest2 r1 r2 w1' w2',
     stdin w1 = text :: rest1 -> stdin w2 = text :: rest2 ->
     schedule_calendar rt c1 d1 t1 m1 k1 w1 = (Ok r1, w1') ->
     schedule_calendar rt c2 d2 t2 m2 k2 w2 = (Ok r2, w2') ->
     exists s, dict_get (py "status") r1 = Some (PStr s)
               /\ dict_get (py "status") r2 = Some (PStr s))
  /\
  (forall e1 s1 m1 a1 e2 s2 m2 a2 w1 w2 text rest1 rest2 r1 r2 w1' w2',
     stdin w1 = text :: rest1 -> stdin w2 = text :: rest2 ->
     send_email rt e1 s1 m1 a1 w1 = (Ok r1, w1') ->
     send_email rt e2 s2 m2 a2 w2 = (Ok r2, w2') ->
     exists s, dict_get (py "status") r1 = Some (PStr s)
               /\ dict_get (py "status") r2 = Some (PStr s))
  /\
  (forall s1 c1 a1 s2 c2 a2 w1 w2 text rest1 rest2 r1 r2 w1' w2',
     stdin w1 = text :: rest1 -> stdin w2 = text :: rest2 ->
     human_in_loop rt s1 c1 a1 w1 = (Ok r1, w1') ->
     human_in_loop rt s2 c2 a2 w2 = (Ok r2, w2') ->
     exists s, dict_get (py "status") r1 = Some (PStr s)
               /\ dict_get (py "status") r2 = Some (PStr s)).
Proof.
  repeat split.
  - intros * H1 H2 R1 R2.
    apply call_contact_inv in R1, R2.
    destruct R1 as (o1 & x1 & E1 & ->), R2 as (o2 & x2 & E2 & ->).
    assert (o1 = text) as -> by congruence.
    assert (o2 = text) as -> by congruence.
    eexists; split; reflexivity.
  - intros * H1 H2 R1 R2.
    apply schedule_calendar_inv in R1, R2.
    destruct R1 as (o1 & x1 & i1 & E1 & ->), R2 as (o2 & x2 & i2 & E2 & ->).
    assert (o1 = text) as -> by congruence.
    assert (o2 = text) as -> by congruence.
    eexists; split; reflexivity.
  - intros * H1 H2 R1 R2.
    apply send_email_inv in R1, R2.
    destruct R1 as (o1 & x1 & y1 & z1 & i1 & E1 & ->),
             R2 as (o2 & x2 & y2 & z2 & i2 & E2 & ->).
    assert (o1 = text) as -> by congruence.
    assert (o2 = text) as -> by congruence.
    eexists; split; reflexivity.
  - intros * H1 H2 R1 R2.
    apply human_in_loop_inv in R1, R2.
    destruct R1 as (o1 & x1 & y1 & i1 & E1 & ->),
             R2 as (o2 & x2 & y2 & i2 & E2 & ->).
    assert (o1 = text) as -> by congruence.
    assert (o2 = text) as -> by congruence.
    eexists; split; reflexivity.
Qed.

End Properties.

(** * The theorems at concrete inputs *)

(** An unanswered call to the interviewer is classified "no_answer". *)
Lemma call_contact_status_witness :
  stdin (console [py "No Answer, voicemail left"])
    = py "No Answer, voicemail left" :: []
  /\ field "status"
       (call_contact plain_runtime (py "Priya") (py "555-0101")
          (py "Ask the interviewer for slots")
          (console [py "No Answer, voicemail left"]))
     = Some (PStr (py "no_answer")).
Proof.
  split; [reflexivity|].
  destruct (call_contact_status plain_runtime (py "Priya") (py "555-0101")
              (py "Ask the interviewer for slots")
              (console [py "No Answer, voicemail left"])
              (py "No Answer, voicemail left") [] eq_refl)
    as (r & w' & Hrun & Hneg & _).
  unfold field. rewrite Hrun. apply Hneg.
  left. apply str_in_spec. reflexivity.
Defined.

(** An answered call to the candidate is followed by scheduling. *)
Lemma call_contact_next_steps_witness :
  stdin (console [py "She picked Tuesday 2pm"]) = py "She picked Tuesday 2pm" :: []
  /\ field "next_steps"
       (call_contact plain_runtime (py "Mei") (py "555-0102")
          (py "Ask the candidate for a slot")
          (console [py "She picked Tuesday 2pm"]))
     = Some (PStr (py "Proceed with scheduling")).
Proof.
  split; [reflexivity|].
  destruct (call_contact_next_steps plain_runtime (py "Mei") (py "555-0102")
              (py "Ask the candidate for a slot")
              (console [py "She picked Tuesday 2pm"])
              (py "She picked Tuesday 2pm") [] eq_refl)
    as (r & w' & Hrun & _ & Hpos).
  unfold field. rewrite Hrun. apply Hpos.
  unfold call_contact in Hrun. injection Hrun as <- _. reflexivity.
Defined.

(** A failed call has duration 0. *)
Lemma call_contact_duration_witness :
  stdin (console [py "Call failed"]) = py "Call failed" :: []
  /\ field "duration_minutes"
       (call_contact plain_runtime (py "Omar") (py "555-0103")
          (py "Escalate to the recruiter") (console [py "Call failed"]))
     = Some (PInt 0).
Proof.
  split; [reflexivity|].
  destruct (call_contact_duration plain_runtime (py "Omar") (py "555-0103")
              (py "Escalate to the recruiter") (console [py "Call failed"])
              (py "Call failed") [] eq_refl)
    as (r & w' & d & Hrun & Hd & [[Hs _] | [_ ->]] & _).
  - exfalso. unfold call_contact in Hrun. injection Hrun as <- _. discriminate Hs.
  - unfold field. rewrite Hrun. exact Hd.
Defined.

(** A scheduling attempt that reports a conflict is classified "conflict". *)
Lemma schedule_calendar_status_witness :
  stdin (console [py "Conflict with another interview"])
    = py "Conflict with another interview" :: []
  /\ field "status"
       (schedule_calendar plain_runtime (py "Mei") (py "2025-03-04")
          (py "14:00") 60 (py "technical")
          (console [py "Conflict with another interview"]))
     = Some (PStr (py "conflict")).
Proof.
  split; [reflexivity|].
  destruct (schedule_calendar_status plain_runtime (py "Mei") (py "2025-03-04")
              (py "14:00") 60 (py "technical")
              (console [py "Conflict with another interview"])
              (py "Conflict with another interview") [] eq_refl)
    as (r & w' & Hrun & Hneg & _).
  unfold field. rewrite Hrun. apply Hneg.
  left. apply str_in_spec. reflexivity.
Defined.

(** A decision to cancel is classified "cancelled". *)
Lemma human_in_loop_status_witness :
  stdin (console [py "Cancel the interview, candidate withdrew"; []])
    = py "Cancel the interview, candidate withdrew" :: [] :: []
  /\ field "status"
       (human_in_loop plain_runtime (py "slot conflict at confirmation")
          (py "Both slots were taken") []
          (console [py "Cancel the interview, candidate withdrew"; []]))
     = Some (PStr (py "cancelled")).
Proof.
  split; [reflexivity|].
  destruct (human_in_loop_status plain_runtime
              (py "slot conflict at confirmation")
              (py "Both slots were taken") []
              (console [py "Cancel the interview, candidate withdrew"; []])
              (py "Cancel the interview, candidate withdrew") [] [] eq_refl)
    as (r & w' & Hrun & Hneg & _).
  unfold field. rewrite Hrun. apply Hneg.
  apply str_in_spec. reflexivity.
Defined.

(** A delivered email with a blank reply is marked "No response received". *)
Lemma send_email_no_reply_witness :
  (stdin (busy_console [py "Delivered"; py "   "])
     = py "Delivered" :: py "   " :: [py "left over"]
   /\ ~ Substring (py "fail") (lower plain_runtime (py "Delivered"))
   /\ ~ Substring (py "error") (lower plain_runtime (py "Delivered"))
   /\ Forall (fun c => isspace plain_runtime c = true) (py "   "))
  /\ field "recipient_response"
       (send_email plain_runtime (py "mei@example.org")
          (py "Interview availability") (py "request") []
          (busy_console [py "Delivered"; py "   "]))
     = Some (PStr (py "No response received")).
Proof.
  assert (Hf : ~ Substring (py "fail") (lower plain_runtime (py "Delivered")))
    by (apply str_in_false; reflexivity).
  assert (He : ~ Substring (py "error") (lower plain_runtime (py "Delivered")))
    by (apply str_in_false; reflexivity).
  assert (Hw : Forall (fun c => isspace plain_runtime c = true) (py "   "))
    by (repeat constructor).
  split; [repeat split; assumption|].
  destruct (send_email_no_reply plain_runtime (py "mei@example.org")
              (py "Interview availability") (py "request") []
              (busy_console [py "Delivered"; py "   "])
              (py "Delivered") (py "   ") [py "left over"] eq_refl Hf He Hw)
    as (r & w' & Hrun & _ & Hresp & _).
  unfold field. rewrite Hrun. exact Hresp.
Defined.

(** An error line yields its message, without the prefix and stripped. *)
Lemma execute_sql_query_error_witness :
  (stdin (busy_console [py "ERROR: relation does not exist "])
     = py "ERROR: relation does not exist " :: [py "left over"]
   /\ exists post,
        lower plain_runtime (py "ERROR: relation does not exist ")
        = py "error" ++ post)
  /\ field "error_message"
       (execute_sql_query plain_runtime (py "SELECT 1") []
          (busy_console [py "ERROR: relation does not exist "]))
     = Some (PStr (py "relation does not exist")).
Proof.
  assert (Hp : exists post,
             lower plain_runtime (py "ERROR: relation does not exist ")
             = py "error" ++ post)
    by (apply startswith_spec; reflexivity).
  split; [split; [reflexivity | exact Hp]|].
  destruct (execute_sql_query_error plain_runtime (py "SELECT 1") []
              (busy_console [py "ERROR: relation does not exist "])
              (py "ERROR: relation does not exist ") [py "left over"]
              eq_refl Hp)
    as (r & w' & Hrun & _ & Hmsg & _).
  unfold field. rewrite Hrun. exact Hmsg.
Defined.

(** Two emails with the same delivery outcome, to different recipients and on
    different consoles, have the same status. *)
Lemma status_depends_on_outcome_only_witness :
  exists r1 w1' r2 w2' s,
    send_email plain_runtime (py "mei@example.org") (py "Your interview")
      (py "confirmation") []
      (console [py "Delivery failed"]) = (Ok r1, w1')
    /\ send_email plain_runtime (py "hr@example.org") (py "Escalation")
         (py "recruiter follow-up") (py "urgent")
         (busy_console [py "Delivery failed"]) = (Ok r2, w2')
    /\ dict_get (py "status") r1 = Some (PStr s)
    /\ dict_get (py "status") r2 = Some (PStr s).
Proof.
  destruct (send_email plain_runtime (py "mei@example.org") (py "Your interview")
              (py "confirmation") [] (console [py "Delivery failed"]))
    as [[r1|e1] w1'] eqn:R1; [|discriminate R1].
  destruct (send_email plain_runtime (py "hr@example.org") (py "Escalation")
              (py "recruiter follow-up") (py "urgent")
              (busy_console [py "Delivery failed"]))
    as [[r2|e2] w2'] eqn:R2; [|discriminate R2].
  destruct (proj1 (proj2 (proj2 (status_depends_on_outcome_only plain_runtime)))
              _ _ _ _ _ _ _ _
              (console [py "Delivery failed"])
              (busy_console [py "Delivery failed"])
              (py "Delivery failed") [] [py "left over"]
              r1 r2 w1' w2' eq_refl eq_refl R1 R2) as (s & H1 & H2).
  exists r1, w1', r2, w2', s. repeat split; assumption.
Defined.

(** A call to the recruiter and an email about the applicant get their labels. *)
Lemma role_label_by_channel_witness :
  field "contact_role"
    (call_contact plain_runtime (py "Omar") (py "555-0103")
       (py "Escalate to the Recruiter") (console [py "ok"]))
  = Some (PStr (py "HR/Recruiter"))
  /\ field "recipient_role"
       (send_email plain_runtime (py "mei@example.org")
          (py "Next steps for the applicant") (py "follow-up") []
          (console [py "sent"; py "thanks"; py "2 hours"]))
     = Some (PStr (py "Candidate")).
Proof.
  split.
  - destruct (proj1 (role_label_by_channel plain_runtime) (py "Omar")
                (py "555-0103") (py "Escalate to the Recruiter")
                (console [py "ok"])) as [Hret Hrole].
    destruct Hret as (r & w' & Hrun); [discriminate|].
    unfold field. rewrite Hrun.
    apply (Hrole r w' Hrun).
    + apply str_in_false; reflexivity.
    + apply str_in_false; reflexivity.
    + right. apply str_in_spec; reflexivity.
  - destruct (proj2 (role_label_by_channel plain_runtime) (py "mei@example.org")
                (py "Next steps for the applicant") (py "follow-up") []
                (console [py "sent"; py "thanks"; py "2 hours"]))
      as [Hret Hrole].
    destruct Hret as (r & w' & Hrun); [cbn; lia|].
    unfold field. rewrite Hrun.
    apply (Hrole r w' Hrun).
    + intros [[H|H]|[H|H]]; revert H; apply str_in_false; reflexivity.
    + right. right. apply str_in_spec; reflexivity.
Defined.

(** C5 as stated fails on the code: a call whose purpose names the
    "applicant" is labelled "Contact", not "Candidate"; an email is labelled
    "Interviewer" for "interview availability" and "HR/Recruiter" for
    "recruitment" in its subject, and "Candidate" for a message type
    "candidate" whatever its subject, where the stated table gives
    "Recipient". *)
Lemma role_label_counterexample :
  (field "contact_role"
     (call_contact plain_runtime (py "Mei") (py "555-0102")
        (py "Ask the applicant for a slot") (console [py "ok"]))
   = Some (PStr (py "Contact"))
   /\ role_label_spec plain_runtime (py "Contact")
        (py "Ask the applicant for a slot") = py "Candidate")
  /\
  (field "recipient_role"
     (send_email plain_runtime (py "priya@example.org")
        (py "Interview availability") (py "request") []
        (console [py "sent"; []]))
   = Some (PStr (py "Interviewer"))
   /\ role_label_spec plain_runtime (py "Recipient")
        (py "Interview availability") = py "Recipient")
  /\
  (field "recipient_role"
     (send_email plain_runtime (py "omar@example.org")
        (py "Recruitment update") (py "notice") []
        (console [py "sent"; []]))
   = Some (PStr (py "HR/Recruiter"))
   /\ role_label_spec plain_runtime (py "Recipient")
        (py "Recruitment update") = py "Recipient")
  /\
  (field "recipient_role"
     (send_email plain_runtime (py "mei@example.org")
        (py "Your schedule") (py "candidate") []
        (console [py "sent"; []]))
   = Some (PStr (py "Candidate"))
   /\ role_label_spec plain_runtime (py "Recipient")
        (py "Your schedule") = py "Recipient").
Proof. vm_compute. repeat split; reflexivity. Qed.

(** * Further properties of the tools *)

(** ** Lists and dictionaries *)

Lemma str_eqb_refl (a : str) : str_eqb a a = true.
Proof. now apply str_eqb_eq. Qed.

Lemma str_eqb_neq (a b : str) : str_eqb a b = false <-> a <> b.
Proof.
  rewrite <- str_eqb_eq. destruct (str_eqb a b); split; congruence.
Qed.

Lemma mem_spec (x : str) (l : list str) : mem x l = true <-> In x l.
Proof.
  unfold mem. rewrite existsb_exists. split.
  - intros [y [Hy E]]. apply str_eqb_eq in E. now subst.
  - intros H. exists x. split; [exact H | apply str_eqb_refl].
Qed.

Lemma dict_get_set_same (k : str) (v : pyval) (d : dict) :
  dict_get k (dict_set k v d) = Some v.
Proof.
  induction d as [|[k' v'] d IH]; simpl.
  - now rewrite str_eqb_refl.
  - destruct (str_eqb k k') eqn:E; simpl; rewrite E; [reflexivity | exact IH].
Qed.

Lemma dict_get_set_other (k k' : str) (v : pyval) (d : dict) :
  k <> k' -> dict_get k (dict_set k' v d) = dict_get k d.
Proof.
  intros Hne. apply str_eqb_neq in Hne.
  induction d as [|[k0 v0] d IH]; simpl.
  - now rewrite Hne.
  - destruct (str_eqb k' k0) eqn:E; simpl.
    + apply str_eqb_eq in E. subst k0. now rewrite Hne.
    + now rewrite IH.
Qed.

Lemma fromkeys_from_spec (xs keys : list str) :
  NoDup keys ->
  let r := fold_left (fun keys x => if mem x keys then keys else keys ++ [x])
             xs keys in
  NoDup r /\ forall x, In x r <-> In x keys \/ In x xs.
Proof.
  revert keys. induction xs as [|y xs IH]; intros keys Hnd; cbn [fold_left].
  - split; [exact Hnd | intros x; simpl; tauto].
  - destruct (mem y keys) eqn:E.
    + destruct (IH keys Hnd) as [H1 H2]. split; [exact H1|].
      intros x. rewrite H2. apply mem_spec in E. simpl.
      split; [tauto | intros [H|[<-|H]]; auto].
    + assert (Hnd' : NoDup (keys ++ [y])).
      { apply NoDup_app; [exact Hnd | repeat constructor; simpl; tauto |].
        intros a Ha [<-|[]]. apply mem_spec in Ha. congruence. }
      destruct (IH (keys ++ [y]) Hnd') as [H1 H2]. split; [exact H1|].
      intros x. rewrite H2, in_app_iff. simpl. tauto.
Qed.

(** [list(dict.fromkeys(xs))] has the elements of [xs], each once. *)
Lemma fromkeys_spec (xs : list str) :
  NoDup (fromkeys xs) /\ forall x, In x (fromkeys xs) <-> In x xs.
Proof.
  destruct (fromkeys_from_spec xs [] (NoDup_nil _)) as [H1 H2].
  split; [exact H1|]. intros x. unfold fromkeys. rewrite H2. simpl. tauto.
Qed.

(** A loop that only prints leaves the input and the clock as they are. *)
Lemma for_each_print (l : list str) (f : str -> str) (w : world) :
  exists w',
    for_each l (fun x => print (f x)) w = (Ok tt, w')
    /\ stdin w' = stdin w /\ clock w' = clock w /\ ticks w' = ticks w.
Proof.
  revert w. induction l as [|x l IH]; intros w; cbn [for_each].
  - exists w. repeat split.
  - unfold bind.
    change (print (f x) w)
      with (Ok tt, {| stdin := stdin w; stdout := stdout w ++ [f x ++ [10]];
                      clock := clock w; ticks := ticks w |}).
    destruct (IH {| stdin := stdin w; stdout := stdout w ++ [f x ++ [10]];
                    clock := clock w; ticks := ticks w |})
      as (w' & Hrun & H1 & H2 & H3).
    exists w'. rewrite Hrun. repeat split; assumption.
Qed.

(** Unfolds the console operations of a tool body, loops and subscripts
    included. *)
Ltac run_tool :=
  repeat (cbv beta iota delta
            [bind print write input ret raise datetime_now when try_except
             lift getitem];
          cbn [stdin stdout clock ticks for_each]).

(** ** Stepping through a tool body *)

Lemma bind_run {A B} (m : IO A) (k : A -> IO B) (w w1 : world) (a : A) :
  m w = (Ok a, w1) -> bind m k w = k a w1.
Proof. intros H. unfold bind. now rewrite H. Qed.

Lemma bind_ok_inv {A B} (m : IO A) (k : A -> IO B) (w w' : world) (b : B) :
  bind m k w = (Ok b, w') ->
  exists a w1, m w = (Ok a, w1) /\ k a w1 = (Ok b, w').
Proof.
  unfold bind. destruct (m w) as [[a|e] w1]; [|discriminate].
  intros H. now exists a, w1.
Qed.

Lemma input_run (prompt : str) (w : world) (line : str) (rest : list str) :
  stdin w = line :: rest ->
  input prompt w
  = (Ok line, {| stdin := rest; stdout := stdout w ++ [prompt];
                 clock := clock w; ticks := ticks w |}).
Proof. intros H. unfold input, bind, write. cbn [stdin stdout]. now rewrite H. Qed.

(** A [try] whose handler always returns never raises. *)
Lemma try_except_total {A} (P : A -> Prop) (body : IO A)
    (handler : exn -> IO A) (w : world) :
  (forall r w', body w = (Ok r, w') -> P r) ->
  (forall e w1, exists r w', handler e w1 = (Ok r, w') /\ P r) ->
  exists r w', try_except body handler w = (Ok r, w') /\ P r.
Proof.
  intros Hbody Hhandler. unfold try_except.
  destruct (body w) as [[r|e] w1] eqn:E.
  - exists r, w1. split; [reflexivity | now apply (Hbody r w1)].
  - apply Hhandler.
Qed.

Lemma print_run (s : str) (w : world) :
  print s w
  = (Ok tt, {| stdin := stdin w; stdout := stdout w ++ [s ++ [10]];
               clock := clock w; ticks := ticks w |}).
Proof. reflexivity. Qed.

Lemma when_true_run (s : str) (w : world) :
  when true (print s) w
  = (Ok tt, {| stdin := stdin w; stdout := stdout w ++ [s ++ [10]];
               clock := clock w; ticks := ticks w |}).
Proof. reflexivity. Qed.

Lemma when_false_run (m : IO unit) (w : world) : when false m w = (Ok tt, w).
Proof. reflexivity. Qed.

(** An [if] without else around a [print] returns, whatever its condition. *)
Lemma when_run (c : bool) (s : str) (w : world) :
  when c (print s) w
  = (Ok tt, {| stdin := stdin w;
               stdout := if c then stdout w ++ [s ++ [10]] else stdout w;
               clock := clock w; ticks := ticks w |}).
Proof. destruct c, w; reflexivity. Qed.

(** A statement that returns, followed by the rest of the body. *)
Lemma bind_ok {A B} (P : B -> world -> Prop) (m : IO A) (k : A -> IO B)
    (w w1 : world) (a : A) :
  m w = (Ok a, w1) ->
  (exists r w', k a w1 = (Ok r, w') /\ P r w') ->
  exists r w', bind m k w = (Ok r, w') /\ P r w'.
Proof. intros H. unfold bind. now rewrite H. Qed.

(** One statement of the tool body that returns: a [print], or an [if]
    without else whose condition is known. *)
Ltac step :=
  eapply bind_ok;
  [ first [apply print_run | apply when_true_run | apply when_false_run
          | apply when_run | reflexivity]
  | cbn [stdin stdout clock ticks] ].

(** An [input] for which a line is waiting. *)
Ltac step_input H :=
  eapply bind_ok;
  [ apply input_run; exact H | cbn [stdin stdout clock ticks] ].

Section MoreProperties.

Variable rt : Runtime.
Variable py_str : pyval -> str.

(** ** The notepad tool *)

(** X1: reading the notes takes one line and returns it as "current_notes"
    with status "success", whatever the line says; the record has neither a
    "message" nor a "content". *)
Theorem manage_notes_read content w notes rest :
  stdin w = notes :: rest ->
  exists r w',
    manage_notes rt (py "read") content w = (Ok r, w') /\
    dict_get (py "status") r = Some (PStr (py "success")) /\
    dict_get (py "current_notes") r = Some (PStr notes) /\
    dict_get (py "message") r = None /\
    dict_get (py "content") r = None /\
    stdin w' = rest.
Proof.
  intros Hin. unfold manage_notes.
  change (str_eqb (py "read") (py "read")) with true. cbv iota.
  destruct (truthy content); run_tool; rewrite Hin; run_tool;
    (eexists; eexists; split; [reflexivity|]); repeat split; reflexivity.
Qed.

(** X2: for every action other than "read", the status is "error" when the
    lowercased outcome contains "fail" and "success" otherwise, and the
    outcome is returned as "message". *)
Theorem manage_notes_status action content w outcome rest :
  action <> py "read" ->
  stdin w = outcome :: rest ->
  exists r w',
    manage_notes rt action content w = (Ok r, w') /\
    (Substring (py "fail") (lower rt outcome) ->
     dict_get (py "status") r = Some (PStr (py "error"))) /\
    (~ Substring (py "fail") (lower rt outcome) ->
     dict_get (py "status") r = Some (PStr (py "success"))) /\
    dict_get (py "message") r = Some (PStr outcome) /\
    stdin w' = rest.
Proof.
  intros Hact Hin. apply str_eqb_neq in Hact. unfold manage_notes.
  rewrite Hact.
  destruct (truthy content); run_tool; rewrite Hin; run_tool;
    (eexists; eexists; split; [reflexivity|]);
    rewrite <- !str_in_spec;
    (destruct (mem action [py "write"; py "append"]);
     [ rewrite !(dict_get_set_other _ (py "content")) by discriminate | ];
     change (dict_get (py "status") _) with
       (Some (PStr (if negb (str_in (py "fail") (lower rt outcome))
                    then py "success" else py "error")));
     destruct (str_in (py "fail") (lower rt outcome)); cbn [negb];
     repeat split; intros; try reflexivity; congruence).
Qed.

(** X3: the record carries the content exactly when the action is "write"
    or "append"; any other action is carried out without it, not refused. *)
Theorem manage_notes_content action content w outcome rest :
  action <> py "read" ->
  stdin w = outcome :: rest ->
  exists r w',
    manage_notes rt action content w = (Ok r, w') /\
    (action = py "write" \/ action = py "append" ->
     dict_get (py "content") r = Some (PStr content)) /\
    (action <> py "write" -> action <> py "append" ->
     dict_get (py "content") r = None) /\
    dict_get (py "action") r = Some (PStr action).
Proof.
  intros Hact Hin. apply str_eqb_neq in Hact. unfold manage_notes.
  rewrite Hact.
  assert (Hmem : mem action [py "write"; py "append"] = true
                 <-> action = py "write" \/ action = py "append").
  { rewrite mem_spec. simpl. intuition congruence. }
  destruct (truthy content); run_tool; rewrite Hin; run_tool;
    (eexists; eexists; split; [reflexivity|]);
    (destruct (mem action [py "write"; py "append"]);
     [ rewrite dict_get_set_same,
         !(dict_get_set_other _ (py "content")) by discriminate
     | ];
     repeat split; intros; try reflexivity;
     exfalso; intuition congruence).
Qed.

(** ** The SQL tool, past its error branch *)

(** X4: once its first line is read, [execute_sql_query] never raises: a
    second line that is missing, a row count that [int] refuses, a failure
    inside [json.loads] or rows without a length all end in a returned record,
    whose status is "success" or "error". *)
Theorem execute_sql_query_total query explanation w :
  stdin w <> [] ->
  exists r w',
    execute_sql_query rt query explanation w = (Ok r, w') /\
    (dict_get (py "status") r = Some (PStr (py "success"))
     \/ dict_get (py "status") r = Some (PStr (py "error"))).
Proof.
  destruct (stdin w) as [|outcome rest] eqn:Hin; [congruence|]. intros _.
  unfold execute_sql_query.
  step. destruct (truthy explanation); step; do 4 step; step_input Hin;
    (destruct (startswith (lower rt outcome) (py "error"));
     [ do 2 step;
       eexists; eexists; split; [reflexivity | right; reflexivity]
     | apply try_except_total;
       [ intros r w' Hbody;
         apply bind_ok_inv in Hbody; destruct Hbody as (results & w1 & _ & Hbody);
         apply bind_ok_inv in Hbody; destruct Hbody as (row_count & w2 & _ & Hbody);
         apply bind_ok_inv in Hbody; destruct Hbody as (t & w3 & _ & Hbody);
         apply bind_ok_inv in Hbody; destruct Hbody as (u1 & w4 & _ & Hbody);
         apply bind_ok_inv in Hbody; destruct Hbody as (u2 & w5 & _ & Hbody);
         injection Hbody as <- _; left; reflexivity
       | intros e w1; do 2 step;
         eexists; eexists; split; [reflexivity | right; reflexivity] ] ]).
Qed.

Lemma startswith_false (s prefix : str) :
  startswith s prefix = false <-> ~ exists post, s = prefix ++ post.
Proof.
  rewrite <- startswith_spec. destruct (startswith s prefix); split; congruence.
Qed.

(** X5: when the outcome is "success" and no second line can be read, the
    [EOFError] of [input] is caught: the tool returns an "error" record whose
    message is "Result parsing error: EOF when reading a line". *)
Theorem execute_sql_query_eof query explanation w outcome :
  stdin w = [outcome] ->
  lower rt outcome = py "success" ->
  exists r w',
    execute_sql_query rt query explanation w = (Ok r, w') /\
    dict_get (py "status") r = Some (PStr (py "error")) /\
    dict_get (py "error_message") r
      = Some (PStr (py "Result parsing error: EOF when reading a line")) /\
    dict_get (py "results") r = None.
Proof.
  intros Hin Hlow. unfold execute_sql_query.
  step. destruct (truthy explanation); step; do 4 step; step_input Hin;
    rewrite Hlow;
    change (startswith (py "success") (py "error")) with false;
    change (str_eqb (py "success") (py "success")) with true;
    cbv iota; run_tool;
    (eexists; eexists; split; [reflexivity|]); repeat split; reflexivity.
Qed.

(** X6: when the outcome is "success" and the second line is a row count
    that [int] accepts as [n], the results are the count [n] with no rows, and
    the "row_count" of the record is the number of those rows, 0, whatever
    [n] is. *)
Theorem execute_sql_query_row_count query explanation w outcome line rest n :
  stdin w = outcome :: line :: rest ->
  lower rt outcome = py "success" ->
  isdigit rt line = true ->
  int_of_str rt line = inl n ->
  exists r w',
    execute_sql_query rt query explanation w = (Ok r, w') /\
    dict_get (py "status") r = Some (PStr (py "success")) /\
    dict_get (py "results") r
      = Some (PDict [(py "row_count", PInt n); (py "rows", PList [])]) /\
    dict_get (py "row_count") r = Some (PInt 0) /\
    stdin w' = rest.
Proof.
  intros Hin Hlow Hdigit Hint. unfold execute_sql_query.
  step. destruct (truthy explanation); step; do 4 step; step_input Hin;
    rewrite Hlow;
    change (startswith (py "success") (py "error")) with false;
    change (str_eqb (py "success") (py "success")) with true;
    cbv iota; run_tool; rewrite Hdigit, Hint; run_tool;
    change (dict_get (py "rows") _) with (Some (PList [])) at 1;
    run_tool; cbn [py_len length Z.of_nat]; run_tool;
    (eexists; eexists; split; [reflexivity|]); repeat split; reflexivity.
Qed.

(** X7: an outcome that neither starts with "error" nor is "success" once
    lowercased, and that [json.loads] rejects, is returned as it is under
    "raw_output", with status "success" and no row count; only that line is
    read. *)
Theorem execute_sql_query_raw_output query explanation w outcome rest :
  stdin w = outcome :: rest ->
  ~ (exists post, lower rt outcome = py "error" ++ post) ->
  lower rt outcome <> py "success" ->
  json_loads rt outcome = JSONDecodeError ->
  exists r w',
    execute_sql_query rt query explanation w = (Ok r, w') /\
    dict_get (py "status") r = Some (PStr (py "success")) /\
    dict_get (py "results") r
      = Some (PDict [(py "raw_output", PStr outcome)]) /\
    dict_get (py "row_count") r = Some PNone /\
    stdin w' = rest.
Proof.
  intros Hin Herr Hsucc Hjson.
  apply startswith_false in Herr. apply str_eqb_neq in Hsucc.
  unfold execute_sql_query, loads_or_raw.
  step. destruct (truthy explanation); step; do 4 step; step_input Hin;
    rewrite Herr, Hsucc, Hjson; run_tool;
    change (dict_get (py "rows") _) with (@None pyval) at 1; run_tool;
    (eexists; eexists; split; [reflexivity|]); repeat split; reflexivity.
Qed.

(** X8: when the outcome is JSON for a dictionary with a "rows" entry, the
    "row_count" of the record is the length of that entry (of a list, a
    string or a dictionary); when the entry has no length, the [TypeError] is
    caught and the tool returns an "error" record with its message. *)
Theorem execute_sql_query_rows query explanation w outcome rest d rows :
  stdin w = outcome :: rest ->
  ~ (exists post, lower rt outcome = py "error" ++ post) ->
  lower rt outcome <> py "success" ->
  json_loads rt outcome = Loaded (PDict d) ->
  dict_get (py "rows") d = Some rows ->
  exists r w',
    execute_sql_query rt query explanation w = (Ok r, w') /\
    (forall n, py_len rows = inl n ->
       dict_get (py "status") r = Some (PStr (py "success")) /\
       dict_get (py "results") r = Some (PDict d) /\
       dict_get (py "row_count") r = Some (PInt n)) /\
    (forall e, py_len rows = inr e ->
       dict_get (py "status") r = Some (PStr (py "error")) /\
       dict_get (py "error_message") r
         = Some (PStr (py "Result parsing error: " ++ str_of_exn e))) /\
    stdin w' = rest.
Proof.
  intros Hin Herr Hsucc Hjson Hrows.
  apply startswith_false in Herr. apply str_eqb_neq in Hsucc.
  unfold execute_sql_query, loads_or_raw.
  step. destruct (truthy explanation); step; do 4 step; step_input Hin;
    rewrite Herr, Hsucc, Hjson; run_tool; rewrite Hrows;
    (destruct (py_len rows) as [n|e]; run_tool;
     (eexists; eexists; split; [reflexivity|]);
     repeat split; intros; try discriminate;
     match goal with H : _ = _ |- _ => injection H as <- end; reflexivity).
Qed.

(** ** Query analysis *)

(** Membership of a fixed message in a list of fixed messages. *)
Ltac decide_in :=
  rewrite <- mem_spec; vm_compute; split; intros; congruence.

(** X9: the suggestions of [analyze_query_performance] are drawn from four
    fixed messages, each present exactly when its rule fires on the
    lowercased query: "select *"; "update" or "delete" without "where";
    "join" unless the metrics line mentions "index"; "order by" without
    "limit". *)
Theorem analyze_query_performance_suggestions query results w metrics rest :
  stdin w = metrics :: rest ->
  exists r w',
    analyze_query_performance rt query results w = (Ok r, w') /\
    exists suggestions,
      dict_get (py "suggestions") r = Some (PList (map PStr suggestions)) /\
      let has kw := Substring kw (lower rt query) in
      (In (py "Consider selecting specific columns instead of SELECT *")
          suggestions
       <-> has (py "select *")) /\
      (In (py "WARNING: Update/Delete without WHERE clause affects all rows")
          suggestions
       <-> ~ has (py "where") /\ (has (py "update") \/ has (py "delete"))) /\
      (In (py "Consider adding indexes on join columns for better performance")
          suggestions
       <-> has (py "join")
           /\ ~ Substring (py "index") (lower rt metrics)) /\
      (In (py "Consider adding LIMIT clause for large result sets")
          suggestions
       <-> has (py "order by") /\ ~ has (py "limit")) /\
      (forall s, In s suggestions ->
         s = py "Consider selecting specific columns instead of SELECT *"
         \/ s = py "WARNING: Update/Delete without WHERE clause affects all rows"
         \/ s = py "Consider adding indexes on join columns for better performance"
         \/ s = py "Consider adding LIMIT clause for large result sets") /\
      stdin w' = rest.
Proof.
  clear py_str. intros Hin. unfold analyze_query_performance.
  do 3 step. step_input Hin. do 2 step.
  assert (H1 : str_in (py "select *") (lower rt query) = true
               <-> Substring (py "select *") (lower rt query))
    by apply str_in_spec.
  assert (H2 : negb (str_in (py "where") (lower rt query))
               && (str_in (py "update") (lower rt query)
                   || str_in (py "delete") (lower rt query)) = true
               <-> ~ Substring (py "where") (lower rt query)
                   /\ (Substring (py "update") (lower rt query)
                       \/ Substring (py "delete") (lower rt query))).
  { rewrite andb_true_iff, negb_true_iff, orb_true_iff, str_in_false,
      !str_in_spec. tauto. }
  assert (H3 : str_in (py "join") (lower rt query)
               && negb (str_in (py "index") (lower rt metrics)) = true
               <-> Substring (py "join") (lower rt query)
                   /\ ~ Substring (py "index") (lower rt metrics)).
  { rewrite andb_true_iff, negb_true_iff, str_in_false, str_in_spec. tauto. }
  assert (H4 : str_in (py "order by") (lower rt query)
               && negb (str_in (py "limit") (lower rt query)) = true
               <-> Substring (py "order by") (lower rt query)
                   /\ ~ Substring (py "limit") (lower rt query)).
  { rewrite andb_true_iff, negb_true_iff, str_in_false, str_in_spec. tauto. }
  destruct (str_in (py "select *") (lower rt query));
    destruct (negb (str_in (py "where") (lower rt query))
              && (str_in (py "update") (lower rt query)
                  || str_in (py "delete") (lower rt query)));
    destruct (str_in (py "join") (lower rt query)
              && negb (str_in (py "index") (lower rt metrics)));
    destruct (str_in (py "order by") (lower rt query)
              && negb (str_in (py "limit") (lower rt query)));
    cbn [app for_each]; repeat step;
    (eexists; eexists; split; [reflexivity|]);
    (eexists; split; [reflexivity|]);
    cbv zeta beta;
    (split; [etransitivity; [|exact H1]; decide_in|]);
    (split; [etransitivity; [|exact H2]; decide_in|]);
    (split; [etransitivity; [|exact H3]; decide_in|]);
    (split; [etransitivity; [|exact H4]; decide_in|]);
    (split; [|reflexivity]);
    intros s Hs; cbn [In] in Hs;
    repeat (destruct Hs as [<-|Hs]; [auto 6|]); destruct Hs.
Qed.

(** ** The schema tool *)

Lemma table_get_none (k : str) (d : list (str * dict)) :
  table_get k d = None <-> ~ In k (map fst d).
Proof.
  induction d as [|[k' v] d IH]; simpl.
  - tauto.
  - destruct (str_eqb k k') eqn:E.
    + apply str_eqb_eq in E. split; [discriminate | intros H; elim H; auto].
    + apply str_eqb_neq in E. rewrite IH. intuition congruence.
Qed.

(** Every entry of [DATABASE_SCHEMA] has a description, key columns and
    relationships, in this order. *)
Lemma schema_entry_shape (k : str) (entry : dict) :
  table_get k DATABASE_SCHEMA = Some entry ->
  exists description key_columns relationships,
    entry = [ (py "description", PStr description);
              (py "key_columns", PList key_columns);
              (py "relationships", PDict relationships) ].
Proof.
  unfold DATABASE_SCHEMA. cbn [table_get].
  repeat (destruct (str_eqb k _);
          [ intros H; injection H as <-; do 3 eexists; reflexivity | ]).
  discriminate.
Qed.

(** X10: for a name that is not a key of [DATABASE_SCHEMA] (the lookup is case
    sensitive), [get_table_schema] reads no input: it returns at once, also
    on exhausted input, a record with the error message and the eight known
    tables. *)
Theorem get_table_schema_unknown table_name w :
  ~ In table_name (map fst DATABASE_SCHEMA) ->
  exists r w',
    get_table_schema rt py_str table_name w = (Ok r, w') /\
    dict_get (py "error") r
      = Some (PStr (py "Table '" ++ table_name
                      ++ py "' not found in known schema")) /\
    dict_get (py "available_tables") r
      = Some (PList (map PStr
           [ py "customer_master"; py "customer_preferences"; py "api_master";
             py "pipeline_master"; py "pipleline_customer_config";
             py "di_audit"; py "case_master"; py "document_classification" ])) /\
    dict_get (py "description") r = None /\
    stdin w' = stdin w.
Proof.
  intros Hnot. apply table_get_none in Hnot. unfold get_table_schema.
  step. rewrite Hnot. do 2 step.
  eexists; eexists; split; [reflexivity|]. repeat split; reflexivity.
Qed.

(** X11: for a table of [DATABASE_SCHEMA], [get_table_schema] reads one line;
    when it is blank the record is the table's entry (description, key columns,
    relationships) with the table name added and no "columns". *)
Theorem get_table_schema_known table_name entry w line rest :
  table_get table_name DATABASE_SCHEMA = Some entry ->
  stdin w = line :: rest ->
  Forall (fun c => isspace rt c = true) line ->
  exists r w',
    get_table_schema rt py_str table_name w = (Ok r, w') /\
    r = entry ++ [(py "table_name", PStr table_name)] /\
    dict_get (py "description") r = dict_get (py "description") entry /\
    dict_get (py "key_columns") r = dict_get (py "key_columns") entry /\
    dict_get (py "relationships") r = dict_get (py "relationships") entry /\
    dict_get (py "columns") r = None /\
    stdin w' = rest.
Proof.
  intros Hget Hin Hblank. unfold get_table_schema.
  destruct (schema_entry_shape _ _ Hget) as (desc & cols & rels & ->).
  apply strip_whitespace in Hblank.
  step. rewrite Hget. step. step_input Hin. rewrite Hblank. cbn [truthy].
  step.
  change (dict_set (py "table_name") (PStr table_name) _)
    with [ (py "description", PStr desc); (py "key_columns", PList cols);
           (py "relationships", PDict rels);
           (py "table_name", PStr table_name) ].
  step. unfold getitem.
  change (dict_get (py "description") _) with (Some (PStr desc)) at 1.
  do 2 step.
  change (dict_get (py "key_columns") _) with (Some (PList cols)) at 1.
  do 2 step.
  change (dict_get (py "relationships") _) with (Some (PDict rels)) at 1.
  do 2 step.
  eexists; eexists; split; [reflexivity|]. repeat split; reflexivity.
Qed.

(** X12: for a table of [DATABASE_SCHEMA] and a line that is not blank, the
    record carries under "columns" what [json.loads] makes of the line, or
    the dictionary with the error "Invalid JSON format" when it is not JSON;
    the entry of the table is returned unchanged before it.  Any other
    exception of [json.loads] is raised by the tool. *)
Theorem get_table_schema_columns table_name entry w line rest :
  table_get table_name DATABASE_SCHEMA = Some entry ->
  stdin w = line :: rest ->
  strip rt line <> [] ->
  (forall v, json_loads rt line = Loaded v ->
     exists w',
       get_table_schema rt py_str table_name w
       = (Ok (entry ++ [(py "table_name", PStr table_name);
                        (py "columns", v)]), w')) /\
  (json_loads rt line = JSONDecodeError ->
     exists w',
       get_table_schema rt py_str table_name w
       = (Ok (entry ++ [(py "table_name", PStr table_name);
                        (py "columns",
                          PDict [(py "error",
                                  PStr (py "Invalid JSON format"))])]), w')) /\
  (forall e, json_loads rt line = LoadsRaised e ->
     exists w',
       get_table_schema rt py_str table_name w = (Raise e, w')).
Proof.
  intros Hget Hin Hline.
  destruct (schema_entry_shape _ _ Hget) as (desc & cols & rels & ->).
  assert (Ht : truthy (strip rt line) = true)
    by (destruct (strip rt line); [congruence | reflexivity]).
  repeat split.
  - intros v Hv. unfold get_table_schema.
    run_tool. rewrite Hget. run_tool. rewrite Hin. run_tool.
    rewrite Ht, Hv. run_tool. eexists. reflexivity.
  - intros Hv. unfold get_table_schema.
    run_tool. rewrite Hget. run_tool. rewrite Hin. run_tool.
    rewrite Ht, Hv. run_tool. eexists. reflexivity.
  - intros e Hv. unfold get_table_schema.
    run_tool. rewrite Hget. run_tool. rewrite Hin. run_tool.
    rewrite Ht, Hv. run_tool. eexists. reflexivity.
Qed.

(** ** Query improvements *)

(** A loop of prints, followed by the rest of the body. *)
Ltac step_for_each :=
  match goal with
  | |- exists r w', bind (for_each ?l (fun x => print (@?f x))) _ ?w = _ /\ _ =>
      let w2 := fresh "w" in
      let Hrun := fresh "Hrun" in
      let Hs := fresh "Hstdin" in
      destruct (for_each_print l f w) as (w2 & Hrun & Hs & _);
      cbn [stdin] in Hs;
      eapply bind_ok; [exact Hrun|]
  end.

(** The record of [suggest_query_improvements], in terms of the line read. *)
Lemma suggest_query_improvements_run
    original_query error_message context w line rest :
  stdin w = line :: rest ->
  exists r w',
    suggest_query_improvements rt original_query error_message context w
      = (Ok r, w') /\
    exists analyzed_at,
      let fixes : list str := [] in
      let fixes :=
        if str_in (py "column") (lower rt error_message)
           && str_in (py "does not exist") (lower rt error_message)
        then fixes ++ [py "Check column names and table aliases"]
                   ++ [py "Use get_table_schema() to verify column names"]
        else fixes in
      let fixes :=
        if str_in (py "table") (lower rt error_message)
           && str_in (py "does not exist") (lower rt error_message)
        then fixes ++ [py "Check table name spelling"]
                   ++ [py "Available tables: "
                         ++ join (py ", ") (map fst DATABASE_SCHEMA)]
        else fixes in
      let fixes :=
        if str_in (py "syntax error") (lower rt error_message)
        then fixes
               ++ [py "Check SQL syntax - missing commas, parentheses, or keywords"]
        else fixes in
      let fixes :=
        if str_in (py "select *") (lower rt original_query)
        then fixes ++ [py "Replace SELECT * with specific column names"]
        else fixes in
      let fixes :=
        if str_in (py "join") (lower rt original_query)
        then fixes ++ [py "Ensure proper JOIN conditions and consider indexes"]
        else fixes in
      r = [ (py "original_query", PStr original_query);
            (py "error_message", PStr error_message);
            (py "context", PStr context);
            (py "suggested_fixes", PList (map PStr fixes));
            (py "alternative_queries", PList []);
            (py "analyzed_at", PStr analyzed_at) ]
          ++ (if truthy (strip rt line)
              then [(py "manual_suggestions", PStr line)] else [])
      /\ stdin w' = rest.
Proof.
  intros Hin. unfold suggest_query_improvements.
  do 2 step. destruct (truthy error_message); step;
    (destruct (truthy context); step; do 2 step; step_input Hin; step;
     step_for_each;
     (eexists; eexists; split; [reflexivity|]);
     eexists; destruct (truthy (strip rt line));
     (split; [reflexivity | assumption])).
Qed.

(** X13: [suggest_query_improvements] reads one line; the record carries it,
    unstripped, as "manual_suggestions" exactly when it is not blank, and its
    "alternative_queries" are always the empty list. *)
Theorem suggest_query_improvements_manual
    original_query error_message context w line rest :
  stdin w = line :: rest ->
  exists r w',
    suggest_query_improvements rt original_query error_message context w
      = (Ok r, w') /\
    (strip rt line <> [] ->
     dict_get (py "manual_suggestions") r = Some (PStr line)) /\
    (strip rt line = [] -> dict_get (py "manual_suggestions") r = None) /\
    dict_get (py "alternative_queries") r = Some (PList []) /\
    stdin w' = rest.
Proof.
  intros Hin.
  destruct (suggest_query_improvements_run original_query error_message
              context w line rest Hin) as (r & w' & Hrun & t & Hr & Hrest).
  exists r, w'. split; [exact Hrun|]. cbv zeta in Hr. subst r.
  destruct (strip rt line) eqn:E; cbn [truthy];
    repeat split; intros; try reflexivity; try congruence.
Qed.



(** ** The query builder *)

(** The record of [build_smart_query], in terms of the line read. *)
Lemma build_smart_query_run objective tables_involved filters w line rest :
  stdin w = line :: rest ->
  exists r w',
    build_smart_query rt py_str objective tables_involved filters w
      = (Ok r, w') /\
    exists generated_at,
      let objective_lower := lower rt objective in
      let suggested_tables :=
        fromkeys
          (fold_left
             (fun suggested (entry : str * list str) =>
                let (keyword, tables) := entry in
                if str_in keyword objective_lower then suggested ++ tables
                else suggested)
             table_keywords []) in
      r = [ (py "objective", PStr objective);
            (py "suggested_tables", PList (map PStr suggested_tables));
            (py "tables_involved",
               PList (map PStr (if nonempty tables_involved
                                then match tables_involved with
                                     | Some l => l
                                     | None => []
                                     end
                                else suggested_tables)));
            (py "filters",
               PDict (if nonempty filters
                      then match filters with Some d => d | None => [] end
                      else []));
            (py "query_type",
               PStr (if any_in [py "count"; py "how many"; py "total"]
                          objective_lower then py "COUNT"
                     else if any_in [py "update"; py "modify"; py "change"]
                          objective_lower then py "UPDATE"
                     else if any_in [py "delete"; py "remove"]
                          objective_lower then py "DELETE"
                     else if any_in [py "insert"; py "add"; py "create"]
                          objective_lower then py "INSERT"
                     else py "SELECT"));
            (py "generated_at", PStr generated_at);
            (py "generated_query", PStr line);
            (py "explanation", PStr (py "Generated query to: " ++ objective)) ]
      /\ stdin w' = rest.
Proof.
  intros Hin. unfold build_smart_query.
  do 6 step.
  destruct (any_in [py "count"; py "how many"; py "total"] (lower rt objective));
    [| destruct (any_in [py "update"; py "modify"; py "change"]
                   (lower rt objective));
       [| destruct (any_in [py "delete"; py "remove"] (lower rt objective));
          [| destruct (any_in [py "insert"; py "add"; py "create"]
                         (lower rt objective)) ] ] ];
    do 4 step; step_input Hin; do 2 step;
    (eexists; eexists; split; [reflexivity|]);
    eexists; split; reflexivity.
Qed.

Lemma any_in_spec (words : list str) (text : str) :
  any_in words text = true <-> Exists (fun kw => Substring kw text) words.
Proof.
  unfold any_in. rewrite existsb_exists, Exists_exists.
  split; intros [kw [Hin H]]; exists kw; (split; [exact Hin|]);
    now apply str_in_spec.
Qed.

(** The tables collected by the keyword loop of [build_smart_query]. *)
Lemma keyword_loop_spec (text : str) (keywords : list (str * list str))
    (suggested : list str) (t : str) :
  In t (fold_left
          (fun suggested (entry : str * list str) =>
             let (keyword, tables) := entry in
             if str_in keyword text then suggested ++ tables else suggested)
          keywords suggested)
  <-> In t suggested
      \/ exists keyword tables,
           In (keyword, tables) keywords
           /\ Substring keyword text /\ In t tables.
Proof.
  revert suggested. induction keywords as [|[kw tables] keywords IH];
    intros suggested; cbn [fold_left].
  - split; [auto | intros [H | (k & ts & [] & _)]; exact H].
  - rewrite IH. destruct (str_in kw text) eqn:E.
    + apply str_in_spec in E. rewrite in_app_iff. split.
      * intros [[H|H] | (k & ts & H1 & H2 & H3)]; auto.
        -- right. exists kw, tables. simpl; auto.
        -- right. exists k, ts. simpl; auto.
      * intros [H | (k & ts & [H1|H1] & H2 & H3)]; auto.
        -- injection H1 as <- <-. auto.
        -- right. exists k, ts. auto.
    + apply str_in_false in E. split.
      * intros [H | (k & ts & H1 & H2 & H3)]; auto.
        right. exists k, ts. simpl; auto.
      * intros [H | (k & ts & [H1|H1] & H2 & H3)]; auto.
        -- injection H1 as <- <-. contradiction.
        -- right. exists k, ts. auto.
Qed.

(** X15: the suggested tables of [build_smart_query] are the tables of the
    keywords that the lowercased objective contains, each table once. *)
Theorem build_smart_query_suggested_tables
    objective tables_involved filters w line rest :
  stdin w = line :: rest ->
  exists r w',
    build_smart_query rt py_str objective tables_involved filters w
      = (Ok r, w') /\
    exists suggested,
      dict_get (py "suggested_tables") r = Some (PList (map PStr suggested)) /\
      NoDup suggested /\
      forall t,
        In t suggested
        <-> exists keyword tables,
              In (keyword, tables) table_keywords
              /\ Substring keyword (lower rt objective) /\ In t tables.
Proof.
  intros Hin.
  destruct (build_smart_query_run objective tables_involved filters w line
              rest Hin) as (r & w' & Hrun & t0 & Hr & Hrest).
  exists r, w'. split; [exact Hrun|]. cbv zeta in Hr. subst r.
  eexists. split; [reflexivity|].
  match goal with
  | |- NoDup (fromkeys ?l) /\ _ => destruct (fromkeys_spec l) as [Hnd Hmem]
  end.
  split; [exact Hnd|]. intros t. rewrite Hmem, keyword_loop_spec.
  simpl In at 1. tauto.
Qed.

(** X16: every table that [build_smart_query] suggests is a key of
    [DATABASE_SCHEMA], the table that [get_table_schema] looks names up
    in. *)
Theorem build_smart_query_suggests_known_tables
    objective tables_involved filters w line rest :
  stdin w = line :: rest ->
  exists r w',
    build_smart_query rt py_str objective tables_involved filters w
      = (Ok r, w') /\
    exists suggested,
      dict_get (py "suggested_tables") r = Some (PList (map PStr suggested)) /\
      forall t, In t suggested ->
        exists entry, table_get t DATABASE_SCHEMA = Some entry.
Proof.
  intros Hin.
  destruct (build_smart_query_run objective tables_involved filters w line
              rest Hin) as (r & w' & Hrun & t0 & Hr & Hrest).
  exists r, w'. split; [exact Hrun|]. cbv zeta in Hr. subst r.
  eexists. split; [reflexivity|].
  intros t Ht.
  match type of Ht with
  | In _ (fromkeys ?l) => apply (proj2 (fromkeys_spec l)) in Ht
  end.
  apply keyword_loop_spec in Ht.
  destruct Ht as [[] | (kw & tables & Hkw & _ & Ht)].
  assert (Hall : forallb
                   (fun entry : str * list str =>
                      forallb (fun t => match table_get t DATABASE_SCHEMA with
                                        | Some _ => true
                                        | None => false
                                        end) (snd entry))
                   table_keywords = true) by (vm_compute; reflexivity).
  rewrite forallb_forall in Hall. specialize (Hall _ Hkw). cbn [snd] in Hall.
  rewrite forallb_forall in Hall. specialize (Hall _ Ht).
  destruct (table_get t DATABASE_SCHEMA) as [entry|]; [|discriminate].
  now exists entry.
Qed.

(** X17: the query type is chosen by the first group of words that the
    lowercased objective contains, in the order COUNT ("count", "how many",
    "total"), UPDATE ("update", "modify", "change"), DELETE ("delete",
    "remove"), INSERT ("insert", "add", "create"), and is SELECT when it
    contains none. *)
Theorem build_smart_query_query_type
    objective tables_involved filters w line rest :
  stdin w = line :: rest ->
  exists r w',
    build_smart_query rt py_str objective tables_involved filters w
      = (Ok r, w') /\
    let any words :=
      Exists (fun kw => Substring kw (lower rt objective)) words in
    let count := any [py "count"; py "how many"; py "total"] in
    let update := any [py "update"; py "modify"; py "change"] in
    let delete := any [py "delete"; py "remove"] in
    let insert := any [py "insert"; py "add"; py "create"] in
    let query_type := dict_get (py "query_type") r in
    (count -> query_type = Some (PStr (py "COUNT"))) /\
    (~ count -> update -> query_type = Some (PStr (py "UPDATE"))) /\
    (~ count -> ~ update -> delete ->
     query_type = Some (PStr (py "DELETE"))) /\
    (~ count -> ~ update -> ~ delete -> insert ->
     query_type = Some (PStr (py "INSERT"))) /\
    (~ count -> ~ update -> ~ delete -> ~ insert ->
     query_type = Some (PStr (py "SELECT"))).
Proof.
  intros Hin.
  destruct (build_smart_query_run objective tables_involved filters w line
              rest Hin) as (r & w' & Hrun & t0 & Hr & Hrest).
  exists r, w'. split; [exact Hrun|]. cbv zeta in Hr. subst r.
  intros any count update delete insert query_type.
  subst count update delete insert any. cbv beta.
  rewrite <- !any_in_spec. subst query_type.
  change (dict_get (py "query_type") _) with
    (Some (PStr (if any_in [py "count"; py "how many"; py "total"]
                      (lower rt objective) then py "COUNT"
                 else if any_in [py "update"; py "modify"; py "change"]
                      (lower rt objective) then py "UPDATE"
                 else if any_in [py "delete"; py "remove"]
                      (lower rt objective) then py "DELETE"
                 else if any_in [py "insert"; py "add"; py "create"]
                      (lower rt objective) then py "INSERT"
                 else py "SELECT"))).
  destruct (any_in [py "count"; py "how many"; py "total"] (lower rt objective));
    destruct (any_in [py "update"; py "modify"; py "change"]
                (lower rt objective));
    destruct (any_in [py "delete"; py "remove"] (lower rt objective));
    destruct (any_in [py "insert"; py "add"; py "create"] (lower rt objective));
    repeat split; intros; try reflexivity; congruence.
Qed.

(** X18: a list of tables that is absent or empty is replaced by the
    suggested tables, and filters that are absent or empty by the empty
    dictionary; a list or filters with an element are returned as given. *)
Theorem build_smart_query_defaults
    objective tables_involved filters w line rest :
  stdin w = line :: rest ->
  exists r w',
    build_smart_query rt py_str objective tables_involved filters w
      = (Ok r, w') /\
    (tables_involved = None \/ tables_involved = Some [] ->
     dict_get (py "tables_involved") r = dict_get (py "suggested_tables") r) /\
    (forall t l, tables_involved = Some (t :: l) ->
     dict_get (py "tables_involved") r = Some (PList (map PStr (t :: l)))) /\
    (filters = None \/ filters = Some [] ->
     dict_get (py "filters") r = Some (PDict [])) /\
    (forall f d, filters = Some (f :: d) ->
     dict_get (py "filters") r = Some (PDict (f :: d))) /\
    dict_get (py "generated_query") r = Some (PStr line) /\
    stdin w' = rest.
Proof.
  intros Hin.
  destruct (build_smart_query_run objective tables_involved filters w line
              rest Hin) as (r & w' & Hrun & t0 & Hr & Hrest).
  exists r, w'. split; [exact Hrun|]. cbv zeta in Hr. subst r.
  repeat split.
  - intros [-> | ->]; reflexivity.
  - intros t l ->. reflexivity.
  - intros [-> | ->]; reflexivity.
  - intros f d ->. reflexivity.
  - exact Hrest.
Qed.

End MoreProperties.

(** ** Interview setups *)

Lemma choice_in {A} (r : nat) (seq : list A) :
  seq <> [] -> exists x, choice r seq = inl x /\ In x seq.
Proof.
  intros Hne. unfold choice.
  assert (Hlt : (r mod length seq < length seq)%nat).
  { apply Nat.mod_upper_bound. destruct seq; [congruence | discriminate]. }
  destruct (nth_error seq (r mod length seq)) as [x|] eqn:E.
  - exists x. split; [reflexivity | now apply nth_error_In in E].
  - apply nth_error_None in E. lia.
Qed.

(** X19: [create_custom_setup] raises [ValueError] exactly for an index
    below 1 or above 5, zero and the negative indexes included; for an index
    from 1 to 5 it returns a setup, whatever the generator draws. *)
Theorem create_custom_setup_range (hr_index : Z) (r1 r2 : nat) :
  ((hr_index < 1 \/ 5 < hr_index)%Z ->
   create_custom_setup hr_index r1 r2
   = inr (ValueError (py "Invalid HR contact index"))) /\
  ((1 <= hr_index <= 5)%Z ->
   exists setup, create_custom_setup hr_index r1 r2 = inl setup).
Proof.
  unfold create_custom_setup.
  change (Z.of_nat (length MOCK_HR_CONTACTS)) with 5%Z.
  split.
  - intros H.
    destruct ((hr_index <? 1)%Z || (5 <? hr_index)%Z) eqn:E; [reflexivity|].
    apply orb_false_iff in E. destruct E as [E1 E2].
    apply Z.ltb_ge in E1, E2. lia.
  - intros H.
    assert (E : (hr_index <? 1)%Z || (5 <? hr_index)%Z = false).
    { apply orb_false_iff. split; apply Z.ltb_ge; lia. }
    rewrite E.
    destruct (choice_in r1 MOCK_CANDIDATES) as (c & Hc & _); [discriminate|].
    destruct (choice_in r2 MOCK_POSITIONS) as (p & Hp & _); [discriminate|].
    rewrite Hc, Hp.
    assert (Hcases : (hr_index = 1 \/ hr_index = 2 \/ hr_index = 3
                      \/ hr_index = 4 \/ hr_index = 5)%Z) by lia.
    destruct Hcases as [-> | [-> | [-> | [-> | ->]]]];
      eexists; reflexivity.
Qed.

(** Every HR contact has an interviewer of the same company. *)
Lemma interviewers_of_nonempty (hr : ContactInfo.t) :
  In hr MOCK_HR_CONTACTS -> interviewers_of (ContactInfo.company hr) <> [].
Proof.
  intros H.
  repeat (destruct H as [<-|H]; [vm_compute; discriminate|]). destruct H.
Qed.

Lemma interviewers_of_spec (company : str) (i : ContactInfo.t) :
  In i (interviewers_of company)
  <-> In i MOCK_INTERVIEWERS /\ ContactInfo.company i = company.
Proof.
  unfold interviewers_of. now rewrite filter_In, str_eqb_eq.
Qed.

(** X20: for an index from 1 to 5, [create_custom_setup] returns the HR
    contact at that position with an interviewer of the same company (the
    fallback to the first interviewer is never taken), the company of the
    setup being theirs; the interview is "technical" and lasts 60 minutes,
    and the candidate and the position come from the mock lists. *)
Theorem create_custom_setup_company (hr_index : Z) (r1 r2 : nat) :
  (1 <= hr_index <= 5)%Z ->
  exists setup,
    create_custom_setup hr_index r1 r2 = inl setup /\
    nth_error MOCK_HR_CONTACTS (Z.to_nat (hr_index - 1))
      = Some (InterviewSetup.hr_contact setup) /\
    In (InterviewSetup.interviewer setup) MOCK_INTERVIEWERS /\
    ContactInfo.company (InterviewSetup.interviewer setup)
      = ContactInfo.company (InterviewSetup.hr_contact setup) /\
    InterviewSetup.company setup
      = ContactInfo.company (InterviewSetup.hr_contact setup) /\
    In (InterviewSetup.interviewee setup) MOCK_CANDIDATES /\
    In (InterviewSetup.position setup) MOCK_POSITIONS /\
    InterviewSetup.interview_type setup = py "technical" /\
    InterviewSetup.preferred_duration setup = 60%Z.
Proof.
  intros H. unfold create_custom_setup.
  change (Z.of_nat (length MOCK_HR_CONTACTS)) with 5%Z.
  assert (E : (hr_index <? 1)%Z || (5 <? hr_index)%Z = false).
  { apply orb_false_iff. split; apply Z.ltb_ge; lia. }
  rewrite E.
  destruct (choice_in r1 MOCK_CANDIDATES) as (c & Hc & Hcin); [discriminate|].
  destruct (choice_in r2 MOCK_POSITIONS) as (p & Hp & Hpin); [discriminate|].
  rewrite Hc, Hp.
  assert (Hcases : (hr_index = 1 \/ hr_index = 2 \/ hr_index = 3
                    \/ hr_index = 4 \/ hr_index = 5)%Z) by lia.
  destruct Hcases as [-> | [-> | [-> | [-> | ->]]]];
    (eexists; split; [reflexivity|]);
    cbn [InterviewSetup.hr_contact InterviewSetup.interviewer
         InterviewSetup.company InterviewSetup.interviewee
         InterviewSetup.position InterviewSetup.interview_type
         InterviewSetup.preferred_duration];
    (split; [reflexivity|]);
    (split; [vm_compute; tauto|]);
    (split; [reflexivity|]); (split; [reflexivity|]);
    (split; [exact Hcin|]); (split; [exact Hpin|]);
    split; reflexivity.
Qed.

(** X21: [create_random_setup] never raises, whatever the generator draws:
    the list of interviewers of the drawn HR contact's company is never
    empty.  The interviewer works at the HR contact's company, which is the
    company of the setup; the duration is 45, 60, 90 or 120 minutes. *)
Theorem create_random_setup_total (r1 r2 r3 r4 r5 r6 : nat) :
  exists setup,
    create_random_setup r1 r2 r3 r4 r5 r6 = inl setup /\
    In (InterviewSetup.hr_contact setup) MOCK_HR_CONTACTS /\
    In (InterviewSetup.interviewer setup) MOCK_INTERVIEWERS /\
    ContactInfo.company (InterviewSetup.interviewer setup)
      = ContactInfo.company (InterviewSetup.hr_contact setup) /\
    InterviewSetup.company setup
      = ContactInfo.company (InterviewSetup.hr_contact setup) /\
    In (InterviewSetup.interviewee setup) MOCK_CANDIDATES /\
    In (InterviewSetup.position setup) MOCK_POSITIONS /\
    In (InterviewSetup.interview_type setup)
       [py "technical"; py "behavioral"; py "system design";
        py "cultural fit"] /\
    In (InterviewSetup.preferred_duration setup) [45; 60; 90; 120]%Z.
Proof.
  unfold create_random_setup.
  destruct (choice_in r1 MOCK_HR_CONTACTS) as (hr & Hhr & Hhrin);
    [discriminate|].
  destruct (choice_in r2 (interviewers_of (ContactInfo.company hr)))
    as (i & Hi & Hiin); [now apply interviewers_of_nonempty|].
  destruct (choice_in r3 MOCK_CANDIDATES) as (c & Hc & Hcin); [discriminate|].
  destruct (choice_in r4 MOCK_POSITIONS) as (p & Hp & Hpin); [discriminate|].
  destruct (choice_in r5 [py "technical"; py "behavioral"; py "system design";
                          py "cultural fit"]) as (t & Ht & Htin);
    [discriminate|].
  destruct (choice_in r6 [45; 60; 90; 120]%Z) as (d & Hd & Hdin);
    [discriminate|].
  rewrite Hhr. cbn [and_then]. rewrite Hi. cbn [and_then].
  rewrite Hc, Hp, Ht, Hd. cbn [and_then].
  apply interviewers_of_spec in Hiin. destruct Hiin as [Hiin Hcompany].
  eexists. split; [reflexivity|]. cbn. repeat split; assumption.
Qed.

(** An [input] that reads the line at the head of the input. *)
Ltac step_read :=
  eapply bind_ok;
  [ apply input_run; reflexivity | cbn [stdin stdout clock ticks] ].

(** X22: [get_contacts_from_input] reads twelve lines.  The interviewer gets
    the HR contact's company (the fourth line), which is also the company of
    the setup, and the candidate the company "External"; an empty twelfth
    line makes the interview "technical", any other line is taken as the
    type; the duration is 60 minutes. *)
Theorem get_contacts_from_input_setup
    w hr_name hr_email hr_phone hr_company int_name int_email int_phone
    candidate_name candidate_email candidate_phone position line rest :
  stdin w = hr_name :: hr_email :: hr_phone :: hr_company :: int_name
            :: int_email :: int_phone :: candidate_name :: candidate_email
            :: candidate_phone :: position :: line :: rest ->
  exists setup w',
    get_contacts_from_input w = (Ok setup, w') /\
    (ContactInfo.company (InterviewSetup.hr_contact setup) = hr_company /\
     ContactInfo.company (InterviewSetup.interviewer setup) = hr_company /\
     InterviewSetup.company setup = hr_company /\
     ContactInfo.company (InterviewSetup.interviewee setup) = py "External" /\
     ContactInfo.name (InterviewSetup.interviewer setup) = int_name /\
     ContactInfo.name (InterviewSetup.interviewee setup) = candidate_name /\
     InterviewSetup.position setup = position /\
     (line = [] -> InterviewSetup.interview_type setup = py "technical") /\
     (line <> [] -> InterviewSetup.interview_type setup = line) /\
     InterviewSetup.preferred_duration setup = 60%Z /\
     stdin w' = rest).
Proof.
  intros Hin. unfold get_contacts_from_input.
  do 3 step. step_input Hin. do 3 step_read. step. do 3 step_read.
  step. do 3 step_read. step. do 2 step_read.
  eexists; eexists; split; [reflexivity|].
  cbn [InterviewSetup.hr_contact InterviewSetup.interviewer
       InterviewSetup.company InterviewSetup.interviewee
       InterviewSetup.position InterviewSetup.interview_type
       InterviewSetup.preferred_duration ContactInfo.company
       ContactInfo.name stdin].
  destruct line; cbn [truthy]; repeat split; intros; try reflexivity;
    congruence.
Qed.

Lemma bind_raise {A B} (m : IO A) (k : A -> IO B) (w w1 : world) (e : exn) :
  m w = (Raise e, w1) -> bind m k w = (Raise e, w1).
Proof. intros H. unfold bind. now rewrite H. Qed.

Lemma input_eof (prompt : str) (w : world) :
  stdin w = [] ->
  input prompt w
  = (Raise EOFError, {| stdin := stdin w; stdout := stdout w ++ [prompt];
                        clock := clock w; ticks := ticks w |}).
Proof. intros H. unfold input, bind, write. cbn [stdin stdout]. now rewrite H. Qed.

(** A statement that returns, followed by a body that raises. *)
Lemma bind_then_raise {A B} (m : IO A) (k : A -> IO B) (w w1 : world) (a : A)
    (e : exn) :
  m w = (Ok a, w1) ->
  (exists w', k a w1 = (Raise e, w')) ->
  exists w', bind m k w = (Raise e, w').
Proof. intros H. unfold bind. now rewrite H. Qed.

(** X23: with fewer than twelve lines to read, [get_contacts_from_input]
    returns no setup: it raises [EOFError]. *)
Theorem get_contacts_from_input_eof w :
  (length (stdin w) < 12)%nat ->
  exists w', get_contacts_from_input w = (Raise EOFError, w').
Proof.
  intros Hlen. unfold get_contacts_from_input.
  remember (stdin w) as lines eqn:Hin. symmetry in Hin.
  do 3 (eapply bind_then_raise;
        [apply print_run | cbn [stdin stdout clock ticks]]).
  destruct lines as [|l1 lines];
    [ eexists; apply bind_raise, input_eof; exact Hin | ].
  eapply bind_then_raise;
    [apply input_run; exact Hin | cbn [stdin stdout clock ticks]].
  repeat
    (first
       [ eapply bind_then_raise;
         [apply print_run | cbn [stdin stdout clock ticks]]
       | destruct lines as [|? lines];
         [ eexists; apply bind_raise, input_eof; reflexivity
         | eapply bind_then_raise;
           [ apply input_run; reflexivity
           | cbn [stdin stdout clock ticks] ] ] ]).
  cbn [length] in Hlen. lia.
Qed.

(** * The further properties at concrete inputs *)

(** Notes that mention a failure are read with status "success". *)
Lemma manage_notes_read_witness :
  stdin (console [py "interviewer call failed twice"])
    = py "interviewer call failed twice" :: []
  /\ field "status"
       (manage_notes plain_runtime (py "read") []
          (console [py "interviewer call failed twice"]))
     = Some (PStr (py "success")).
Proof.
  split; [reflexivity|].
  destruct (manage_notes_read plain_runtime []
              (console [py "interviewer call failed twice"])
              (py "interviewer call failed twice") [] eq_refl)
    as (r & w' & Hrun & Hs & _).
  unfold field. rewrite Hrun. exact Hs.
Defined.

(** A write whose outcome reports a failure has status "error". *)
Lemma manage_notes_status_witness :
  (py "write" <> py "read"
   /\ stdin (console [py "Save FAILED"]) = py "Save FAILED" :: [])
  /\ field "status"
       (manage_notes plain_runtime (py "write") (py "slots: Tue 2pm")
          (console [py "Save FAILED"]))
     = Some (PStr (py "error")).
Proof.
  assert (Ha : py "write" <> py "read") by (apply str_eqb_neq; reflexivity).
  split; [split; [exact Ha | reflexivity]|].
  destruct (manage_notes_status plain_runtime (py "write")
              (py "slots: Tue 2pm") (console [py "Save FAILED"])
              (py "Save FAILED") [] Ha eq_refl)
    as (r & w' & Hrun & Herr & _).
  unfold field. rewrite Hrun. apply Herr. apply str_in_spec. reflexivity.
Defined.

(** An action "delete" is carried out, without content. *)
Lemma manage_notes_content_witness :
  (py "delete" <> py "read"
   /\ stdin (console [py "done"]) = py "done" :: [])
  /\ field "content"
       (manage_notes plain_runtime (py "delete") (py "old notes")
          (console [py "done"]))
     = None.
Proof.
  assert (Ha : py "delete" <> py "read") by (apply str_eqb_neq; reflexivity).
  split; [split; [exact Ha | reflexivity]|].
  destruct (manage_notes_content plain_runtime (py "delete") (py "old notes")
              (console [py "done"]) (py "done") [] Ha eq_refl)
    as (r & w' & Hrun & _ & Hnone & _).
  unfold field. rewrite Hrun.
  apply Hnone; apply str_eqb_neq; reflexivity.
Defined.

(** A "success" with nothing after it still ends in a record. *)
Lemma execute_sql_query_total_witness :
  stdin (console [py "success"]) <> []
  /\ exists r w',
       execute_sql_query plain_runtime (py "SELECT 1") []
         (console [py "success"]) = (Ok r, w')
       /\ (dict_get (py "status") r = Some (PStr (py "success"))
           \/ dict_get (py "status") r = Some (PStr (py "error"))).
Proof.
  split; [discriminate|].
  apply execute_sql_query_total. discriminate.
Defined.

Lemma execute_sql_query_eof_witness :
  (stdin (console [py "SUCCESS"]) = [py "SUCCESS"]
   /\ lower plain_runtime (py "SUCCESS") = py "success")
  /\ field "error_message"
       (execute_sql_query plain_runtime (py "SELECT 1") []
          (console [py "SUCCESS"]))
     = Some (PStr (py "Result parsing error: EOF when reading a line")).
Proof.
  split; [split; reflexivity|].
  destruct (execute_sql_query_eof plain_runtime (py "SELECT 1") []
              (console [py "SUCCESS"]) (py "SUCCESS") eq_refl eq_refl)
    as (r & w' & Hrun & _ & Hmsg & _).
  unfold field. rewrite Hrun. exact Hmsg.
Defined.

(** A row count of 5 is reported as 0 rows. *)
Lemma execute_sql_query_row_count_witness :
  (stdin (busy_console [py "success"; py "5"])
     = py "success" :: py "5" :: [py "left over"]
   /\ lower plain_runtime (py "success") = py "success"
   /\ isdigit plain_runtime (py "5") = true
   /\ int_of_str plain_runtime (py "5") = inl 5%Z)
  /\ field "row_count"
       (execute_sql_query plain_runtime (py "SELECT 1") (py "count rows")
          (busy_console [py "success"; py "5"]))
     = Some (PInt 0).
Proof.
  split; [repeat split; reflexivity|].
  destruct (execute_sql_query_row_count plain_runtime (py "SELECT 1")
              (py "count rows") (busy_console [py "success"; py "5"])
              (py "success") (py "5") [py "left over"] 5%Z
              eq_refl eq_refl eq_refl eq_refl)
    as (r & w' & Hrun & _ & _ & Hcount & _).
  unfold field. rewrite Hrun. exact Hcount.
Defined.

Lemma execute_sql_query_raw_output_witness :
  (stdin (console [py "3 rows"]) = py "3 rows" :: []
   /\ ~ (exists post, lower plain_runtime (py "3 rows") = py "error" ++ post)
   /\ lower plain_runtime (py "3 rows") <> py "success"
   /\ json_loads plain_runtime (py "3 rows") = JSONDecodeError)
  /\ field "results"
       (execute_sql_query plain_runtime (py "SELECT 1") []
          (console [py "3 rows"]))
     = Some (PDict [(py "raw_output", PStr (py "3 rows"))]).
Proof.
  assert (H1 : ~ (exists post,
                    lower plain_runtime (py "3 rows") = py "error" ++ post))
    by (apply startswith_false; reflexivity).
  assert (H2 : lower plain_runtime (py "3 rows") <> py "success")
    by (apply str_eqb_neq; reflexivity).
  split; [repeat split; try assumption; reflexivity|].
  destruct (execute_sql_query_raw_output plain_runtime (py "SELECT 1") []
              (console [py "3 rows"]) (py "3 rows") [] eq_refl H1 H2 eq_refl)
    as (r & w' & Hrun & _ & Hres & _).
  unfold field. rewrite Hrun. exact Hres.
Defined.

Lemma execute_sql_query_rows_witness :
  (stdin (console [rows_json]) = rows_json :: []
   /\ ~ (exists post, lower json_runtime rows_json = py "error" ++ post)
   /\ lower json_runtime rows_json <> py "success"
   /\ json_loads json_runtime rows_json
      = Loaded (PDict [(py "rows", PList [PInt 1; PInt 2])])
   /\ dict_get (py "rows") [(py "rows", PList [PInt 1; PInt 2])]
      = Some (PList [PInt 1; PInt 2]))
  /\ field "row_count"
       (execute_sql_query json_runtime (py "SELECT 1") []
          (console [rows_json]))
     = Some (PInt 2).
Proof.
  assert (H1 : ~ (exists post,
                    lower json_runtime rows_json = py "error" ++ post))
    by (apply startswith_false; reflexivity).
  assert (H2 : lower json_runtime rows_json <> py "success")
    by (apply str_eqb_neq; reflexivity).
  split; [repeat split; try assumption; reflexivity|].
  destruct (execute_sql_query_rows json_runtime (py "SELECT 1") []
              (console [rows_json]) rows_json []
              [(py "rows", PList [PInt 1; PInt 2])] (PList [PInt 1; PInt 2])
              eq_refl H1 H2 eq_refl eq_refl)
    as (r & w' & Hrun & Hlen & _).
  unfold field. rewrite Hrun. apply (Hlen 2%Z eq_refl).
Defined.

(** An ordered query without a limit gets the LIMIT suggestion. *)
Lemma analyze_query_performance_suggestions_witness :
  stdin (console [py "12 ms"]) = py "12 ms" :: []
  /\ exists r w' suggestions,
       analyze_query_performance plain_runtime
         (py "SELECT name FROM case_master ORDER BY name") PNone
         (console [py "12 ms"]) = (Ok r, w')
       /\ dict_get (py "suggestions") r
          = Some (PList (map PStr suggestions))
       /\ In (py "Consider adding LIMIT clause for large result sets")
             suggestions.
Proof.
  split; [reflexivity|].
  destruct (analyze_query_performance_suggestions plain_runtime
              (py "SELECT name FROM case_master ORDER BY name") PNone
              (console [py "12 ms"]) (py "12 ms") [] eq_refl)
    as (r & w' & Hrun & l & Hl & _ & _ & _ & Hlimit & _).
  exists r, w', l. repeat split; [exact Hrun | exact Hl |].
  apply Hlimit. split.
  - apply str_in_spec. reflexivity.
  - apply str_in_false. reflexivity.
Defined.

(** The lookup is case sensitive. *)
Lemma get_table_schema_unknown_witness :
  ~ In (py "Case_Master") (map fst DATABASE_SCHEMA)
  /\ field "error"
       (get_table_schema plain_runtime plain_str (py "Case_Master")
          (console []))
     = Some (PStr (py "Table 'Case_Master' not found in known schema")).
Proof.
  assert (H : ~ In (py "Case_Master") (map fst DATABASE_SCHEMA))
    by (apply table_get_none; reflexivity).
  split; [exact H|].
  destruct (get_table_schema_unknown plain_runtime plain_str
              (py "Case_Master") (console []) H)
    as (r & w' & Hrun & Herr & _).
  unfold field. rewrite Hrun. exact Herr.
Defined.

Lemma get_table_schema_known_witness :
  (exists entry,
     table_get (py "api_master") DATABASE_SCHEMA = Some entry
     /\ stdin (console [py " "]) = py " " :: []
     /\ Forall (fun c => isspace plain_runtime c = true) (py " "))
  /\ field "table_name"
       (get_table_schema plain_runtime plain_str (py "api_master")
          (console [py " "]))
     = Some (PStr (py "api_master")).
Proof.
  destruct (table_get (py "api_master") DATABASE_SCHEMA) as [entry|] eqn:E;
    [|discriminate E].
  assert (Hw : Forall (fun c => isspace plain_runtime c = true) (py " "))
    by (repeat constructor).
  split; [exists entry; split; [reflexivity|]; split; [reflexivity | exact Hw]|].
  destruct (get_table_schema_known plain_runtime plain_str (py "api_master")
              entry (console [py " "]) (py " ") [] E eq_refl Hw)
    as (r & w' & Hrun & Hr & _).
  unfold field. rewrite Hrun. subst r.
  vm_compute in E. injection E as <-. reflexivity.
Defined.

Lemma get_table_schema_columns_witness :
  (exists entry,
     table_get (py "di_audit") DATABASE_SCHEMA = Some entry
     /\ stdin (console [py "id, case_id"]) = py "id, case_id" :: []
     /\ strip plain_runtime (py "id, case_id") <> []
     /\ json_loads plain_runtime (py "id, case_id") = JSONDecodeError)
  /\ field "columns"
       (get_table_schema plain_runtime plain_str (py "di_audit")
          (console [py "id, case_id"]))
     = Some (PDict [(py "error", PStr (py "Invalid JSON format"))]).
Proof.
  destruct (table_get (py "di_audit") DATABASE_SCHEMA) as [entry|] eqn:E;
    [|discriminate E].
  assert (Hs : strip plain_runtime (py "id, case_id") <> [])
    by (vm_compute; discriminate).
  split; [exists entry; split; [reflexivity|]; split; [reflexivity|];
          split; [exact Hs | reflexivity]|].
  destruct (get_table_schema_columns plain_runtime plain_str (py "di_audit")
              entry (console [py "id, case_id"]) (py "id, case_id") []
              E eq_refl Hs) as (_ & Hbad & _).
  destruct (Hbad eq_refl) as (w' & Hrun).
  unfold field. rewrite Hrun.
  vm_compute in E. injection E as <-. reflexivity.
Defined.

Lemma suggest_query_improvements_manual_witness :
  stdin (console [py " use a CTE "]) = py " use a CTE " :: []
  /\ field "manual_suggestions"
       (suggest_query_improvements plain_runtime (py "SELECT 1") [] []
          (console [py " use a CTE "]))
     = Some (PStr (py " use a CTE ")).
Proof.
  split; [reflexivity|].
  destruct (suggest_query_improvements_manual plain_runtime (py "SELECT 1")
              [] [] (console [py " use a CTE "]) (py " use a CTE ") []
              eq_refl) as (r & w' & Hrun & Hsome & _).
  unfold field. rewrite Hrun. apply Hsome. vm_compute. discriminate.
Defined.


Lemma build_smart_query_suggested_tables_witness :
  stdin (console [py "SELECT 1"]) = py "SELECT 1" :: []
  /\ exists r w' suggested,
       build_smart_query plain_runtime plain_str
         (py "List the API pipelines") None None (console [py "SELECT 1"])
       = (Ok r, w')
       /\ dict_get (py "suggested_tables") r
          = Some (PList (map PStr suggested))
       /\ NoDup suggested
       /\ In (py "pipeline_master") suggested.
Proof.
  split; [reflexivity|].
  destruct (build_smart_query_suggested_tables plain_runtime plain_str
              (py "List the API pipelines") None None
              (console [py "SELECT 1"]) (py "SELECT 1") [] eq_refl)
    as (r & w' & Hrun & l & Hl & Hnd & Hmem).
  exists r, w', l. repeat split; [exact Hrun | exact Hl | exact Hnd |].
  apply Hmem.
  exists (py "api"), [py "api_master"; py "pipeline_master"].
  repeat split.
  - vm_compute. tauto.
  - apply str_in_spec. reflexivity.
  - simpl. tauto.
Defined.

Lemma build_smart_query_suggests_known_tables_witness :
  stdin (console [py "SELECT 1"]) = py "SELECT 1" :: []
  /\ exists r w' suggested,
       build_smart_query plain_runtime plain_str
         (py "Audit the customer config") None None
         (console [py "SELECT 1"])
       = (Ok r, w')
       /\ dict_get (py "suggested_tables") r
          = Some (PList (map PStr suggested))
       /\ forall t, In t suggested ->
            exists entry, table_get t DATABASE_SCHEMA = Some entry.
Proof.
  split; [reflexivity|].
  destruct (build_smart_query_suggests_known_tables plain_runtime plain_str
              (py "Audit the customer config") None None
              (console [py "SELECT 1"]) (py "SELECT 1") [] eq_refl)
    as (r & w' & Hrun & l & Hl & Hknown).
  exists r, w', l. repeat split; assumption.
Defined.

(** An objective with a COUNT word and a DELETE word is a COUNT. *)
Lemma build_smart_query_query_type_witness :
  stdin (console [py "SELECT 1"]) = py "SELECT 1" :: []
  /\ field "query_type"
       (build_smart_query plain_runtime plain_str
          (py "How many cases should we delete?") None None
          (console [py "SELECT 1"]))
     = Some (PStr (py "COUNT")).
Proof.
  split; [reflexivity|].
  destruct (build_smart_query_query_type plain_runtime plain_str
              (py "How many cases should we delete?") None None
              (console [py "SELECT 1"]) (py "SELECT 1") [] eq_refl)
    as (r & w' & Hrun & Hcount & _).
  unfold field. rewrite Hrun. apply Hcount.
  apply Exists_cons_tl, Exists_cons_hd. apply str_in_spec. reflexivity.
Defined.

(** An empty list of tables is replaced by the suggested tables. *)
Lemma build_smart_query_defaults_witness :
  stdin (console [py "SELECT 1"]) = py "SELECT 1" :: []
  /\ field "tables_involved"
       (build_smart_query plain_runtime plain_str (py "Show every case")
          (Some []) None (console [py "SELECT 1"]))
     = field "suggested_tables"
         (build_smart_query plain_runtime plain_str (py "Show every case")
            (Some []) None (console [py "SELECT 1"])).
Proof.
  split; [reflexivity|].
  destruct (build_smart_query_defaults plain_runtime plain_str
              (py "Show every case") (Some []) None
              (console [py "SELECT 1"]) (py "SELECT 1") [] eq_refl)
    as (r & w' & Hrun & Hdef & _).
  unfold field. rewrite Hrun. exact (Hdef (or_intror eq_refl)).
Defined.

(** Index 0 is refused: it does not select the last contact. *)
Lemma create_custom_setup_range_witness :
  (0 < 1 \/ 5 < 0)%Z
  /\ create_custom_setup 0 3 4 = inr (ValueError (py "Invalid HR contact index")).
Proof.
  assert (H : (0 < 1 \/ 5 < 0)%Z) by lia.
  split; [exact H|].
  exact (proj1 (create_custom_setup_range 0 3 4) H).
Defined.

Lemma create_custom_setup_company_witness :
  (1 <= 3 <= 5)%Z
  /\ exists setup,
       create_custom_setup 3 7 8 = inl setup
       /\ ContactInfo.name (InterviewSetup.interviewer setup)
          = py "Robert Brown"
       /\ InterviewSetup.company setup = py "DataTech Analytics".
Proof.
  assert (H : (1 <= 3 <= 5)%Z) by lia.
  split; [exact H|].
  destruct (create_custom_setup_company 3 7 8 H)
    as (setup & Hrun & _).
  exists setup. split; [exact Hrun|].
  vm_compute in Hrun. injection Hrun as <-. split; reflexivity.
Defined.

Lemma get_contacts_from_input_setup_witness :
  stdin (busy_console
           [py "Ana"; py "ana@acme.io"; py "555-1"; py "Acme";
            py "Bo"; py "bo@acme.io"; py "555-2";
            py "Cy"; py "cy@mail.io"; py "555-3";
            py "Backend Engineer"; []])
    = py "Ana" :: py "ana@acme.io" :: py "555-1" :: py "Acme"
      :: py "Bo" :: py "bo@acme.io" :: py "555-2"
      :: py "Cy" :: py "cy@mail.io" :: py "555-3"
      :: py "Backend Engineer" :: [] :: [py "left over"]
  /\ exists setup w',
       get_contacts_from_input
         (busy_console
            [py "Ana"; py "ana@acme.io"; py "555-1"; py "Acme";
             py "Bo"; py "bo@acme.io"; py "555-2";
             py "Cy"; py "cy@mail.io"; py "555-3";
             py "Backend Engineer"; []])
       = (Ok setup, w')
       /\ ContactInfo.company (InterviewSetup.interviewer setup) = py "Acme"
       /\ InterviewSetup.interview_type setup = py "technical"
       /\ stdin w' = [py "left over"].
Proof.
  split; [reflexivity|].
  destruct (get_contacts_from_input_setup
              (busy_console
                 [py "Ana"; py "ana@acme.io"; py "555-1"; py "Acme";
                  py "Bo"; py "bo@acme.io"; py "555-2";
                  py "Cy"; py "cy@mail.io"; py "555-3";
                  py "Backend Engineer"; []])
              (py "Ana") (py "ana@acme.io") (py "555-1") (py "Acme")
              (py "Bo") (py "bo@acme.io") (py "555-2")
              (py "Cy") (py "cy@mail.io") (py "555-3")
              (py "Backend Engineer") [] [py "left over"] eq_refl)
    as (setup & w' & Hrun & _ & Hcompany & _ & _ & _ & _ & _ & Htype & _
        & _ & Hrest).
  exists setup, w'. repeat split; auto.
Defined.

Lemma get_contacts_from_input_eof_witness :
  (length (stdin (console [py "Ana"; py "ana@acme.io"; py "555-1"])) < 12)%nat
  /\ exists w',
       get_contacts_from_input
         (console [py "Ana"; py "ana@acme.io"; py "555-1"])
       = (Raise EOFError, w').
Proof.
  assert (H : (length (stdin (console [py "Ana"; py "ana@acme.io";
                                       py "555-1"])) < 12)%nat)
    by (simpl; lia).
  split; [exact H|].
  exact (get_contacts_from_input_eof _ H).
Defined.
